(** * Fictioneers node SDK: session, token cache, header composition,
      request dispatch and the initialise-and-progress workflow.

    The development follows [src/index.js], which holds two implementations
    of the client class: the legacy JavaScript one (module [Legacy] below)
    and the TypeScript one (the rest of the file).

    Modelling conventions.
    - JavaScript values that travel as JSON are [JSValue]s; numbers are
      integers ([Z]): timestamps are milliseconds, [expires_in] is a number
      of seconds, HTTP statuses are integers.
    - Values the TypeScript source gives a type keep it: the session fields
      ([string], [string | null], [null | number]) and the token endpoint's
      [TokenResponse].
    - An [async] method is a state transformer over the session, the outside
      world and the list of network calls made so far; it either returns or
      throws, and in both cases the state it leaves behind is kept.
    - The outside world (clock, uuid generator, HTTP transport, the text
      of a number) is an arbitrary [Host]; nothing is assumed about it.
      Where it matters how axios settles a response, the host is
      [axios_defaults network]: axios with its default settings on top of
      an arbitrary network. *)

From Stdlib Require Import ZArith QArith String List Lia.
From stdpp Require Import base option gmap strings list pretty.

Local Open Scope string_scope.
Local Open Scope Z_scope.

(** ** JavaScript values *)

#[local] Set Warnings "-register-all".

Inductive JSValue : Type :=
| JUndefined
| JNull
| JBool (b : bool)
| JNum (n : Z)
| JStr (s : string)
| JArr (items : list JSValue)
| JObj (fields : list (string * JSValue)).

Inductive JsError : Type :=
| Error (message : string)
| TypeError (message : string)
| AxiosError (message : string).

(** ToBoolean: [undefined], [null], [false], [0] and the empty string are
    falsy, everything else (objects and arrays included) is truthy. *)
Definition truthy (v : JSValue) : bool :=
  match v with
  | JUndefined | JNull => false
  | JBool b => b
  | JNum n => negb (n =? 0)
  | JStr s => negb (String.eqb s "")
  | JArr _ | JObj _ => true
  end.

(** [v == null]: true for [null] and [undefined] only. *)
Definition loosely_null (v : JSValue) : bool :=
  match v with
  | JUndefined | JNull => true
  | _ => false
  end.

Definition Array_isArray (v : JSValue) : bool :=
  match v with
  | JArr _ => true
  | _ => false
  end.

(** [a || b] on values. *)
Definition js_or (a b : JSValue) : JSValue := if truthy a then a else b.

Fixpoint lookup_field (k : string) (fs : list (string * JSValue)) : option JSValue :=
  match fs with
  | [] => None
  | (k', v) :: rest => if String.eqb k k' then Some v else lookup_field k rest
  end.

(** [o[k] = v] on the fields of an object: an existing key keeps its
    position, a new key is added at the end. *)
Fixpoint set_field (k : string) (v : JSValue) (fs : list (string * JSValue))
  : list (string * JSValue) :=
  match fs with
  | [] => [(k, v)]
  | (k', v') :: rest =>
      if String.eqb k k' then (k', v) :: rest else (k', v') :: set_field k v rest
  end.


(** Property read [v.k], for the keys the source reads ([data], [error]),
    which name no built-in property of a string, number, boolean or array:
    reading from [null] or [undefined] throws, reading from any other
    non-object gives [undefined]. *)
Definition js_get (v : JSValue) (k : string) : JsError + JSValue :=
  match v with
  | JUndefined =>
      inl (TypeError ("Cannot read properties of undefined (reading '" ++ k ++ "')"))
  | JNull =>
      inl (TypeError ("Cannot read properties of null (reading '" ++ k ++ "')"))
  | JObj fs => inr (default JUndefined (lookup_field k fs))
  | JBool _ | JNum _ | JStr _ | JArr _ => inr JUndefined
  end.

(** [hay.indexOf(needle)]: the first position of [needle], or [-1]. *)
Definition indexOf (hay needle : string) : Z :=
  match String.index 0 needle hay with
  | Some n => Z.of_nat n
  | None => -1
  end.


(** ** HTTP requests and responses *)

Inductive Method : Type := DELETE | GET | POST | PATCH.

Inductive Auth : Type := bearer | key.

Record Request : Type := mkRequest {
  req_method : Method;
  req_url : string;
  req_body : option JSValue;
  req_headers : gmap string string
}.

Record AxiosResponse (T : Type) : Type := mkResponse {
  status : Z;
  statusText : string;
  data : T
}.
Arguments mkResponse {T} _ _ _.
Arguments status {T} _.
Arguments statusText {T} _.
Arguments data {T} _.

Inductive AxiosResult (T : Type) : Type :=
| Resolved (response : AxiosResponse T)
| Rejected (message : string).
Arguments Resolved {T} _.
Arguments Rejected {T} _.

(** The token endpoint's payload at its declared type,
    [response.data as TokenResponse]: [access_token] a string and
    [expires_in] a number. The cast is not checked at run time; a payload
    of another shape is outside the model. *)
Record TokenResponse : Type := mkTokenResponse {
  access_token : string;
  expires_in : Z
}.

(** A network call as it appears in the trace of a run. *)
Inductive Call : Type :=
| TokenExchange (r : Request)
| EndpointCall (r : Request).

Definition is_token_exchange (c : Call) : bool :=
  match c with
  | TokenExchange _ => true
  | EndpointCall _ => false
  end.

Definition token_exchanges (cs : list Call) : nat :=
  length (List.filter is_token_exchange cs).

Definition endpoint_calls (cs : list Call) : list Request :=
  flat_map (fun c => match c with EndpointCall r => [r] | TokenExchange _ => [] end) cs.

(** ** The host: clock, uuid generator and HTTP transport *)

Class Host : Type := {
  World : Type;
  Date_now : World -> Z * World;
  uuidv4 : World -> string * World;
  axios_token : Request -> World -> AxiosResult TokenResponse * World;
  axios : Request -> World -> AxiosResult JSValue * World;
  (** The text the engine's Number::toString gives for a number: its
      digits for a safe integer, an exponent form from 1e21 on. *)
  Number_toString : Z -> string
}.

(** ** Conversion to text *)

Section Printing.
Context {host : Host}.

(** The text of a primitive value. *)
Definition primitive_text (v : JSValue) : string :=
  match v with
  | JUndefined => "undefined"
  | JNull => "null"
  | JBool true => "true"
  | JBool false => "false"
  | JNum n => Number_toString n
  | JStr s => s
  | JArr _ | JObj _ => ""
  end.

(** ToString, as the [+] operator applies it to its left operand when the
    right one is a string. An object is converted through its [valueOf]
    and [toString]: the inherited ones give [[object Object]], but an own
    field named [toString] (never callable in a parsed body) hides the
    inherited conversion and the operator throws. An array joins the texts
    of its elements with commas, [null] and [undefined] elements giving the
    empty text, and throws where an element does. *)
Fixpoint js_to_string (v : JSValue) : JsError + string :=
  match v with
  | JObj fields =>
      match lookup_field "toString" fields with
      | Some _ => inl (TypeError "Cannot convert object to primitive value")
      | None => inr "[object Object]"
      end
  | JArr items =>
      (fix join (l : list JSValue) : JsError + string :=
         match l with
         | [] => inr ""
         | x :: rest =>
             match (if loosely_null x then inr "" else js_to_string x) with
             | inl e => inl e
             | inr first =>
                 match rest with
                 | [] => inr first
                 | _ :: _ =>
                     match join rest with
                     | inl e => inl e
                     | inr others => inr (first ++ "," ++ others)
                     end
                 end
             end
         end) items
  | JUndefined | JNull | JBool _ | JNum _ | JStr _ => inr (primitive_text v)
  end.

(** [v + s] with [s] a string. *)
Definition js_plus_string (v : JSValue) (s : string) : JsError + JSValue :=
  match js_to_string v with
  | inl e => inl e
  | inr text => inr (JStr (text ++ s))
  end.

(** The default [validateStatus] of axios. *)
Definition validateStatus (status0 : Z) : bool :=
  (200 <=? status0) && (status0 <? 300).

(** How axios settles what the network delivers when the caller passes no
    [validateStatus], as every call of the source does: a response is
    resolved when its status is 0 or passes the default [validateStatus],
    and rejected with [Request failed with status code N] otherwise; a
    transport failure stays a rejection. axios is not part of the
    repository; this is its documented default. *)
Definition settle {T} (delivered : AxiosResult T) : AxiosResult T :=
  match delivered with
  | Resolved response =>
      if (status response =? 0) || validateStatus (status response)
      then Resolved response
      else Rejected ("Request failed with status code "
                     ++ Number_toString (status response))
  | Rejected message => Rejected message
  end.
End Printing.

(** The host in which axios runs with its default settings on top of a
    network: what [network] delivers for a request, a response of any
    status or a failure, is settled by [settle]. *)
Definition axios_defaults (network : Host) : Host := {|
  World := @World network;
  Date_now := @Date_now network;
  uuidv4 := @uuidv4 network;
  axios_token := fun r w =>
    let '(delivered, w') := @axios_token network r w in
    (@settle network _ delivered, w');
  axios := fun r w =>
    let '(delivered, w') := @axios network r w in
    (@settle network _ delivered, w');
  Number_toString := @Number_toString network
|}.

(** ** Asynchronous methods as state transformers *)

Section Async.
Context {host : Host}.
Context {S : Type}.

Record State : Type := mkState {
  sess : S;
  world : World;
  calls : list Call
}.

Inductive Outcome (A : Type) : Type :=
| Return (a : A) (st : State)
| Throw (e : JsError) (st : State).
Arguments Return {A} a st.
Arguments Throw {A} e st.

Definition Async (A : Type) : Type := State -> Outcome A.

Definition final {A} (o : Outcome A) : State :=
  match o with
  | Return _ st => st
  | Throw _ st => st
  end.

Definition returned {A} (o : Outcome A) : option A :=
  match o with
  | Return a _ => Some a
  | Throw _ _ => None
  end.

Definition thrown {A} (o : Outcome A) : option JsError :=
  match o with
  | Return _ _ => None
  | Throw e _ => Some e
  end.

Definition pure {A} (a : A) : Async A := fun st => Return a st.

Definition andThen {A B} (m : Async A) (k : A -> Async B) : Async B :=
  fun st =>
    match m st with
    | Return a st' => k a st'
    | Throw e st' => Throw e st'
    end.

Definition throw {A} (e : JsError) : Async A := fun st => Throw e st.

(** [this] *)
Definition this : Async S := fun st => Return (sess st) st.

Definition assign (f : S -> S) : Async unit :=
  fun st => Return tt (mkState (f (sess st)) (world st) (calls st)).

(** [Date.now()] *)
Definition now : Async Z :=
  fun st =>
    let '(t, w) := Date_now (world st) in
    Return t (mkState (sess st) w (calls st)).

(** One awaited transport call; a rejected promise is rethrown. The call
    is recorded in the trace whatever its result. *)
Definition await_call {T} (tag : Request -> Call)
    (transport : Request -> World -> AxiosResult T * World) (r : Request)
  : Async (AxiosResponse T) :=
  fun st =>
    let st' w := mkState (sess st) w (calls st ++ [tag r]) in
    match transport r (world st) with
    | (Resolved response, w) => Return response (st' w)
    | (Rejected message, w) => Throw (AxiosError message) (st' w)
    end.

(** Lift a computation that throws without touching the state. *)
Definition lift {A} (r : JsError + A) : Async A :=
  match r with
  | inl e => throw e
  | inr a => pure a
  end.
End Async.

Arguments State {host} S.
Arguments Outcome {host} S A.
Arguments Async {host} S A.
Arguments Return {host S A} a st.
Arguments Throw {host S A} e st.
Arguments mkState {host S} _ _ _.

Arguments final {host S A} o.
Arguments returned {host S A} o.
Arguments thrown {host S A} o.

#[global] Instance async_ret {host : Host} {S : Type} : MRet (Async S) :=
  fun A => pure.
#[global] Instance async_bind {host : Host} {S : Type} : MBind (Async S) :=
  fun A B k m => andThen m k.

(** ** The TypeScript client *)

Definition DEFAULT_API_VERSION : string := "1".
Definition SECRET_API_KEY_PREFIX : string := "s_".

Record Session : Type := mkSession {
  apiKey : string;
  userId : string;
  accessToken : option string;
  accessTokenExpiry : option Z;
  _endpoint : string
}.

Definition with_userId (u : string) (s : Session) : Session :=
  mkSession (apiKey s) u (accessToken s) (accessTokenExpiry s) (_endpoint s).

Definition with_accessToken (t : option string) (s : Session) : Session :=
  mkSession (apiKey s) (userId s) t (accessTokenExpiry s) (_endpoint s).

Definition with_accessTokenExpiry (e : option Z) (s : Session) : Session :=
  mkSession (apiKey s) (userId s) (accessToken s) e (_endpoint s).

(** [!this.accessToken]: [null] and the empty string are falsy. *)
Definition no_token (t : option string) : bool :=
  match t with
  | None => true
  | Some s => String.eqb s ""
  end.

(** [getAccessToken] and [setAccessToken] both answer with an
    [AccessTokenResponse]; the second computes [expiresIn] by a division,
    which is kept exact as a rational. *)
Record AccessTokenResponse : Type := mkAccessTokenResponse {
  accessToken_ : option string;
  expiresIn : Q
}.

Definition _isKeySecret (s : Session) : bool :=
  indexOf (apiKey s) SECRET_API_KEY_PREFIX =? 0.

Definition _commonRequestHeaders : gmap string string :=
  <["Accept-Encoding" := "application/json"]>
    (<["Accept" := "application/json"]>
      (<["Content-Type" := "application/json"]> ∅)).

Definition _getAuthHeaderSecretKey (s : Session) : gmap string string :=
  <["Authorization" := apiKey s]> ∅.

(** [(this.accessTokenExpiry - Date.now()) / 1000 + 10], with [t] the clock
    reading; a [null] expiry counts as [0]. *)
Definition remaining_seconds (expiry : option Z) (t : Z) : Q :=
  (inject_Z (default 0%Z expiry - t)%Z / inject_Z 1000 + inject_Z 10)%Q.

(** The request [getAccessToken] posts: [axios.post(url, {user_id}, {headers})]. *)
Definition token_request (s : Session) : Request :=
  mkRequest POST (_endpoint s ++ "/auth/token")
    (Some (JObj [("user_id", JStr (userId s))]))
    (_getAuthHeaderSecretKey s).

(** The guard of [setAccessToken] as a function of the clock reading [t]:
    [!accessToken || accessTokenExpiry == null || accessTokenExpiry < t]. *)
Definition stale (s : Session) (t : Z) : bool :=
  no_token (accessToken s)
  || match accessTokenExpiry s with
     | None => true
     | Some expiry => expiry <? t
     end.

(** The token and its expiry are both absent or both present. *)
Definition cache_paired (s : Session) : bool :=
  match accessToken s, accessTokenExpiry s with
  | None, None | Some _, Some _ => true
  | _, _ => false
  end.

(** [{...a, ...b}]: the keys of [b] win. *)
Definition spread (a b : gmap string string) : gmap string string := b ∪ a.

Section Client.
Context {host : Host}.

(** [new Fictioneers({apiKey, userId = null, apiVersion = "1"})]; the
    warning printed for a secret key in a browser changes nothing. *)
Definition constructor (apiKey0 : string) (userId0 : option string)
    (apiVersion : option string) (w : World) : Session * World :=
  let '(uid, w') :=
    match userId0 with
    | None => uuidv4 w
    | Some u => (u, w)
    end in
  (mkSession apiKey0 uid None None
     ("https://api.fictioneers.co.uk/v" ++ default DEFAULT_API_VERSION apiVersion),
   w').

Definition getAccessToken : Async Session TokenResponse :=
  s ← this;
  response ← await_call TokenExchange axios_token (token_request s);
  let accessToken := data response in
  assign (with_accessToken (Some (access_token accessToken)));;
  mret (mkTokenResponse (access_token accessToken) (expires_in accessToken)).

(** The guard of [setAccessToken]; [||] evaluates [Date.now()] only when
    a token and an expiry are there. *)
Definition needs_refresh : Async Session bool :=
  s ← this;
  if no_token (accessToken s) then mret true
  else match accessTokenExpiry s with
       | None => mret true
       | Some expiry => t ← now; mret (expiry <? t)
       end.

Definition setAccessToken : Async Session AccessTokenResponse :=
  refresh ← needs_refresh;
  (if refresh : bool then
     grant ← getAccessToken;
     assign (with_accessToken (Some (access_token grant)));;
     t ← now;
     assign (with_accessTokenExpiry (Some (t + (expires_in grant - 10) * 1000)))
   else mret tt);;
  s ← this;
  t ← now;
  mret (mkAccessTokenResponse (accessToken s)
          (remaining_seconds (accessTokenExpiry s) t)).

Definition getUserId : Async Session string :=
  s ← this; mret (userId s).

Definition setUserId (newId : string) : Async Session unit :=
  s ← this;
  if String.eqb newId (userId s) then mret tt
  else if negb (Nat.eqb (String.length newId) 0) then
    assign (with_userId newId);;
    assign (with_accessToken None);;
    setAccessToken;;
    mret tt
  else throw (Error "The parameter userId must have length").

Definition _getAuthHeadersAudienceEndpoints : Async Session (gmap string string) :=
  s ← this;
  if _isKeySecret s then
    mret (<["Fictioneers-User-ID" := userId s]> (<["Authorization" := apiKey s]> ∅))
  else
    setAccessToken;;
    s ← this;
    if no_token (accessToken s) then
      throw (Error "Could not assemble auth headers with bearer - no access token")
    else
      mret (<["Authorization" := "Bearer " ++ default "" (accessToken s)]> ∅).
End Client.

(** The cached token and expiry are those of one grant: the token endpoint
    resolved this session's token request with the token, and the expiry
    is the clock reading taken right after, plus the granted lifetime less
    10 seconds. *)
Definition granted {host : Host} (s : Session) : Prop :=
  exists w r w2 t w3,
    axios_token (token_request s) w = (Resolved r, w2)
    /\ Date_now w2 = (t, w3)
    /\ accessToken s = Some (access_token (data r))
    /\ accessTokenExpiry s = Some (t + (expires_in (data r) - 10) * 1000).

(** Token and expiry are both absent, or both present and those of one
    grant. *)
Definition cache_consistent {host : Host} (s : Session) : Prop :=
  (accessToken s = None /\ accessTokenExpiry s = None) \/ granted s.

Definition DEPRECATION_NOTICE : string :=
  " Notice: this API endpoint has been deprecated and will be removed in a future version of this SDK.".

Definition js_typeof (v : JSValue) : string :=
  match v with
  | JUndefined => "undefined"
  | JBool _ => "boolean"
  | JNum _ => "number"
  | JStr _ => "string"
  | JNull | JArr _ | JObj _ => "object"
  end.

(** [o.k = v] in strict mode (the source is an ES module): an object gets
    the property, [null] and [undefined] cannot be written to, and neither
    can a primitive. The source never reaches the assignment with an
    array. *)
Definition js_set {host : Host} (o : JSValue) (k : string) (v : JSValue)
  : JsError + JSValue :=
  match o with
  | JObj fs => inr (JObj (set_field k v fs))
  | JUndefined | JNull =>
      inl (TypeError ("Cannot set properties of " ++ primitive_text o
                      ++ " (setting '" ++ k ++ "')"))
  | JBool _ | JNum _ | JStr _ | JArr _ =>
      inl (TypeError ("Cannot create property '" ++ k ++ "' on " ++ js_typeof o
                      ++ " '" ++ primitive_text o ++ "'"))
  end.

(** The envelope [_doFetch] fabricates for a DELETE. *)
Definition delete_envelope (response : AxiosResponse JSValue) : JSValue :=
  JObj [("data", JNull);
        ("error", if 400 <=? status response then JStr (statusText response) else JNull);
        ("meta", JNull);
        ("status", JNum 204)].

(** The request [_doFetch] hands to axios: POST and PATCH carry
    [body || {}], GET and DELETE carry no body. *)
Definition dispatch_request (s : Session) (url : string) (method : Method)
    (body : JSValue) (headers : gmap string string) : Request :=
  mkRequest method (_endpoint s ++ url)
    (match method with
     | POST | PATCH => Some (js_or body (JObj []))
     | GET | DELETE => None
     end)
    headers.

(** The deprecation notice put on a response body. *)
Definition decorate {host : Host} (responseData : JSValue) : JsError + JSValue :=
  match js_get responseData "error" with
  | inl e => inl e
  | inr error =>
      match js_plus_string (if truthy error then error else JStr "")
              DEPRECATION_NOTICE with
      | inl e => inl e
      | inr text => js_set responseData "error" text
      end
  end.

(** What [_doFetch] makes of the response. *)
Definition shape_response {host : Host} (method : Method) (deprecated : bool)
    (response : AxiosResponse JSValue) : JsError + JSValue :=
  match method with
  | DELETE => inr (delete_envelope response)
  | _ =>
      if deprecated && negb (Array_isArray (data response))
      then decorate (data response)
      else inr (data response)
  end.

Section Dispatch.
Context {host : Host}.

(** The headers that authenticate a call in the given mode. *)
Definition auth_headers (auth : Auth) : Async Session (gmap string string) :=
  match auth with
  | bearer => _getAuthHeadersAudienceEndpoints
  | key => s ← this; mret (_getAuthHeaderSecretKey s)
  end.

Definition _doFetch (url : string) (method : Method) (auth : Auth)
    (body : JSValue) (deprecated : bool) : Async Session JSValue :=
  authHeaders ←
    match auth with
    | bearer => _getAuthHeadersAudienceEndpoints
    | key => s ← this; mret (_getAuthHeaderSecretKey s)
    end;
  let headers := spread _commonRequestHeaders authHeaders in
  s ← this;
  response ←
    match method with
    | POST =>
        await_call EndpointCall axios
          (mkRequest POST (_endpoint s ++ url) (Some (js_or body (JObj []))) headers)
    | DELETE =>
        await_call EndpointCall axios (mkRequest DELETE (_endpoint s ++ url) None headers)
    | GET =>
        await_call EndpointCall axios (mkRequest GET (_endpoint s ++ url) None headers)
    | PATCH =>
        await_call EndpointCall axios
          (mkRequest PATCH (_endpoint s ++ url) (Some (js_or body (JObj []))) headers)
    end;
  match method with
  | DELETE => mret (delete_envelope response)
  | _ =>
      let responseData := data response in
      if deprecated && negb (Array_isArray responseData) then
        error ← lift (js_get responseData "error");
        text ← lift (js_plus_string (if truthy error then error else JStr "")
                       DEPRECATION_NOTICE);
        lift (js_set responseData "error" text)
      else mret responseData
  end.

(** *** Endpoint methods *)

Definition getTimelines : Async Session JSValue :=
  _doFetch "/timelines" GET key JNull false.

Definition deleteTimelineUsers (timelineId : string) : Async Session JSValue :=
  _doFetch ("/timelines/" ++ timelineId ++ "/users") DELETE key JNull false.

Definition getUser : Async Session JSValue :=
  _doFetch "/users/me" GET bearer JNull false.

Definition deleteUser : Async Session JSValue :=
  _doFetch "/users/me" DELETE bearer JNull false.

Definition js_of_maxSteps (maxSteps : option Z) : JSValue :=
  match maxSteps with
  | Some n => JNum n
  | None => JNull
  end.

Definition createUser_body (timelineId : string)
    (disableTimeGuards pauseAtBeats : bool) (maxSteps : option Z) : JSValue :=
  JObj [("published_timeline_id", JStr timelineId);
        ("timezone", JStr "Europe/London");
        ("disable_time_guards", JBool disableTimeGuards);
        ("pause_at_beats", JBool pauseAtBeats);
        ("max_steps", js_of_maxSteps maxSteps)].

(** [createUser({timelineId, disableTimeGuards = false, pauseAtBeats = false,
    maxSteps = null})] *)
Definition createUser (timelineId : string)
    (disableTimeGuards pauseAtBeats : bool) (maxSteps : option Z)
  : Async Session JSValue :=
  _doFetch "/users" POST bearer
    (createUser_body timelineId disableTimeGuards pauseAtBeats maxSteps) false.

Definition getUserTimelineEvents : Async Session JSValue :=
  _doFetch "/user-timeline-events" GET bearer JNull false.

(** [initialiseAndProgressUser({timelineId, disableTimeGuards = false,
    pauseAtBeats = false, maxSteps = null})]; [let user;] starts out
    [undefined]. *)
Definition initialiseAndProgressUser (timelineId : string)
    (disableTimeGuards pauseAtBeats : bool) (maxSteps : option Z)
  : Async Session JSValue :=
  getUserResponse ← getUser;
  existing ← lift (js_get getUserResponse "data");
  user ←
    (if loosely_null existing then
       createUserResponse ← createUser timelineId disableTimeGuards pauseAtBeats maxSteps;
       lift (js_get createUserResponse "data")
     else mret JUndefined);
  userTimelineEventsResponse ← getUserTimelineEvents;
  eventsData ← lift (js_get userTimelineEventsResponse "data");
  let userTimelineEvents := js_or eventsData (JArr []) in
  mret (JObj [("user", user); ("userTimelineEvents", userTimelineEvents)]).
End Dispatch.

(** *** More endpoint methods *)

Section Endpoints.
Context {host : Host}.

Definition getTimeline (timelineId : string) : Async Session JSValue :=
  _doFetch ("/timelines/" ++ timelineId) GET key JNull false.

Definition getTimelineEvents (timelineId : string) : Async Session JSValue :=
  _doFetch ("/timelines/" ++ timelineId ++ "/timeline-events") GET key JNull false.

Definition getTimelineUsers (timelineId : string) : Async Session JSValue :=
  _doFetch ("/timelines/" ++ timelineId ++ "/users") GET key JNull false.

(** [getTimelineUser({timelineId, userId = null})]: [if (userId == null)
    userId = this.userId]. *)
Definition getTimelineUser (timelineId : string) (userId0 : option string)
  : Async Session JSValue :=
  s ← this;
  let userId1 := default (userId s) userId0 in
  _doFetch ("/timelines/" ++ timelineId ++ "/users/" ++ userId1) GET key JNull false.

Definition deleteTimelineUser (timelineId : string) (userId0 : option string)
  : Async Session JSValue :=
  s ← this;
  let userId1 := default (userId s) userId0 in
  _doFetch ("/timelines/" ++ timelineId ++ "/users/" ++ userId1) DELETE key JNull false.

Definition getTimelineEventStateChanges (timelineId : string) : Async Session JSValue :=
  _doFetch ("/timelines/" ++ timelineId ++ "/event-state-changes/") GET key JNull false.

Definition followLinkUserTimelineEvent (timelineEventId linkId : string)
  : Async Session JSValue :=
  _doFetch ("/user-timeline-events/" ++ timelineEventId ++ "/follow-link") POST bearer
    (JObj [("link_id", JStr linkId)]) false.
End Endpoints.

(** A property of the session and of the number of token exchanges made so
    far, read on a state. *)
Definition tracks {host : Host} (J : Session -> nat -> Prop) (st : State Session) : Prop :=
  J (sess st) (token_exchanges (calls st)).

(** ** The legacy JavaScript client

    As it stands the legacy class does not load as a module:
    [_getAuthHeadersBearer] uses [await] without being [async]. Only the
    credential store is modelled, as it is written. [setUserId] is not an [async]
    method there and does not await the promise of [setAccessToken]: it
    returns once that call has run up to its first [await], that is, once
    the token request has been handed to [fetch]. The model stops at that
    point; the assignments that follow the response happen after
    [setUserId] has returned. *)
Module Legacy.

Record Session : Type := mkSession {
  apiSecretKey : string;
  userId : string;
  accessToken : option string;
  accessTokenExpiry : option Z;
  _endpoint : string
}.

Definition with_userId (u : string) (s : Session) : Session :=
  mkSession (apiSecretKey s) u (accessToken s) (accessTokenExpiry s) (_endpoint s).

Definition with_accessToken (t : option string) (s : Session) : Session :=
  mkSession (apiSecretKey s) (userId s) t (accessTokenExpiry s) (_endpoint s).

(** The request [Fictioneers.getAccessToken] passes to [fetch]. The class
    has no static [_endpoint], so the address starts with the text
    [undefined]. *)
Definition token_request (userId0 apiSecretKey0 : string) : Request :=
  mkRequest POST ("undefined" ++ "/token")
    (Some (JObj [("user_id", JStr userId0)]))
    (<["Authorization" := apiSecretKey0]>
       (<["Accept" := "application/json"]>
          (<["Content-Type" := "application/json"]> ∅))).

Section Client.
Context {host : Host}.

(** A call handed to the transport whose answer is not awaited here. *)
Definition start_call (c : Call) : Async Session unit :=
  fun st => Return tt (mkState (sess st) (world st) (calls st ++ [c])).

(** [!this.accessToken || this.accessTokenExpiry < Date.now()], where a
    [null] expiry counts as [0]. *)
Definition needs_refresh : Async Session bool :=
  s ← this;
  if no_token (accessToken s) then mret true
  else t ← now; mret (default 0 (accessTokenExpiry s) <? t).

(** [this.setAccessToken()] up to its first [await]. *)
Definition setAccessToken_start : Async Session unit :=
  refresh ← needs_refresh;
  if refresh : bool then
    s ← this;
    start_call (TokenExchange (token_request (userId s) (apiSecretKey s)))
  else mret tt.

Definition setUserId (newId : string) : Async Session unit :=
  if negb (Nat.eqb (String.length newId) 0) then
    assign (with_userId newId);;
    assign (with_accessToken None);;
    setAccessToken_start
  else throw (Error "The parameter userId must have length").
End Client.

End Legacy.

(** ** A scripted host

    A host whose clock shows a fixed time and whose transport answers from
    two scripts, one for the token endpoint and one for every other
    request; an exhausted script rejects. It serves to run the client on
    concrete inputs, whose numbers are small integers: those print as
    their digits. *)

Record Script : Type := mkScript {
  clock : Z;
  token_answers : list (AxiosResult TokenResponse);
  answers : list (AxiosResult JSValue)
}.

Definition scripted : Host := {|
  World := Script;
  Date_now := fun w => (clock w, w);
  uuidv4 := fun w => ("9b2f6c1e-4d3a-4c8e-a1b7-5f0e2d6c7a90", w);
  axios_token := fun _ w =>
    match token_answers w with
    | [] => (Rejected "Network Error", w)
    | a :: rest => (a, mkScript (clock w) rest (answers w))
    end;
  axios := fun _ w =>
    match answers w with
    | [] => (Rejected "Network Error", w)
    | a :: rest => (a, mkScript (clock w) (token_answers w) rest)
    end;
  Number_toString := pretty
|}.

Definition ok {T} (d : T) : AxiosResult T := Resolved (mkResponse 200 "OK" d).

(** Sessions and worlds used as concrete inputs below. *)

Definition base_url : string := "https://api.fictioneers.co.uk/v1".

Definition secret_session : Session :=
  mkSession "s_3f9a" "user-1" None None base_url.

Definition public_session (token : option string) (expiry : option Z) : Session :=
  mkSession "v_71c2" "user-1" token expiry base_url.

Definition legacy_session : Legacy.Session :=
  Legacy.mkSession "s_3f9a" "user-1" (Some "tok") (Some 5000)
    "https://api.fictioneers.co.uk/api/v1".

Definition start {S : Type} (s : S) (w : Script) : State (host := scripted) S :=
  @mkState scripted S s w [].

(** The boundary: a cached token whose expiry is the current clock
    reading. *)
Definition boundary_state : State (host := scripted) Session :=
  start (public_session (Some "tok") (Some 1000))
    (mkScript 1000 [ok (mkTokenResponse "fresh" 60)] []).

(** No token yet; the token endpoint will grant one for 60 seconds. *)
Definition tokenless_state : State (host := scripted) Session :=
  start (public_session None None)
    (mkScript 1000 [ok (mkTokenResponse "fresh" 60)] []).

(** A cached token that expired one millisecond ago. *)
Definition expired_state : State (host := scripted) Session :=
  start (public_session (Some "tok") (Some 999))
    (mkScript 1000 [ok (mkTokenResponse "fresh" 60)] []).

(** A session whose userId is the empty string, as
    [new Fictioneers({apiKey, userId: ""})] builds it. *)
Definition empty_id_state : State (host := scripted) Session :=
  start (fst (constructor (host := scripted) "v_71c2" (Some "") None
                (mkScript 1000 [] [])))
    (mkScript 1000 [] []).

(** A new session, before any call; the token endpoint will answer. *)
Definition new_state : State (host := scripted) Session :=
  start (fst (constructor (host := scripted) "v_71c2" (Some "user-1") None
                (mkScript 1000 [] [])))
    (mkScript 1000 [ok (mkTokenResponse "fresh" 60)] []).

(** The legacy client with a cached token, about to be given the userId it
    already has. *)
Definition legacy_state : State (host := scripted) Legacy.Session :=
  start legacy_session (mkScript 1000 [] []).

(** A secret-key session facing the given endpoint answers. *)
Definition facing (replies : list (AxiosResult JSValue)) : State (host := scripted) Session :=
  start secret_session (mkScript 1000 [] replies).

Definition existing_user : JSValue :=
  JObj [("data", JObj [("id", JStr "user-1")]); ("error", JNull)].

(** A public-key session without a token, facing the given answers of the
    token endpoint and of the other endpoints. *)
Definition tokenless_facing (grants : list (AxiosResult TokenResponse))
    (replies : list (AxiosResult JSValue)) : State (host := scripted) Session :=
  start (public_session None None) (mkScript 1000 grants replies).

(** A secret-key session whose requests go through axios with its default
    settings to a network that delivers the given responses. *)
Definition remote_facing (delivered : list (AxiosResult JSValue))
  : State (host := axios_defaults scripted) Session :=
  @mkState (axios_defaults scripted) Session secret_session
    (mkScript 1000 [] delivered) [].

(** * Properties *)

Ltac run :=
  unfold lift in *;
  unfold mbind, mret, async_bind, async_ret, andThen, pure, this, assign, throw in *;
  cbn [sess world calls final returned thrown] in *.

Section Properties.
Context {host : Host}.

(** *** Key classification *)

Lemma indexOf_prefix (sub s : string) :
  sub <> "" -> (indexOf s sub =? 0) = String.prefix sub s.
Proof.
  intros Hne. unfold indexOf.
  destruct s as [|c s].
  - destruct sub as [|d sub]; [congruence|]. reflexivity.
  - cbn [String.index].
    destruct (String.prefix sub (String c s)) eqn:Hp; [reflexivity|].
    destruct (String.index 0 sub s); reflexivity.
Qed.

Lemma _isKeySecret_spec (s : Session) :
  _isKeySecret s = String.prefix SECRET_API_KEY_PREFIX (apiKey s).
Proof. unfold _isKeySecret. apply indexOf_prefix. discriminate. Qed.

(** C1. With a secret key (one that starts with [s_]), composing the
    headers of a bearer-mode call returns at once, in the state it
    started from (no token exchange, no other call, nothing stored), and
    the headers hold the raw key under [Authorization] and the session's
    userId under [Fictioneers-User-ID]. *)
Theorem secret_key_bearer_headers (st : State Session) :
  String.prefix SECRET_API_KEY_PREFIX (apiKey (sess st)) = true ->
  exists headers,
    _getAuthHeadersAudienceEndpoints st = Return headers st
    /\ token_exchanges (calls (final (_getAuthHeadersAudienceEndpoints st)))
       = token_exchanges (calls st)
    /\ headers !! "Authorization" = Some (apiKey (sess st))
    /\ headers !! "Fictioneers-User-ID" = Some (userId (sess st)).
Proof.
  intros Hsecret. rewrite <- _isKeySecret_spec in Hsecret.
  unfold _getAuthHeadersAudienceEndpoints. run. rewrite Hsecret. run.
  eexists. split; [reflexivity|]. split; [reflexivity|]. split.
  - rewrite lookup_insert_ne by discriminate. apply lookup_insert_eq.
  - apply lookup_insert_eq.
Qed.

(** *** The token cache *)

Lemma needs_refresh_run (st : State Session) :
  exists w,
    needs_refresh st
    = Return (stale (sess st) (fst (Date_now (world st))))
             (mkState (sess st) w (calls st)).
Proof.
  unfold needs_refresh, stale, now. run.
  destruct (no_token (accessToken (sess st))); cbn [orb].
  - exists (world st). destruct st; reflexivity.
  - destruct (accessTokenExpiry (sess st)) as [e|].
    + destruct (Date_now (world st)) as [t w]. exists w. reflexivity.
    + exists (world st). destruct st; reflexivity.
Qed.

Lemma needs_refresh_fresh (st : State Session) (e t : Z) (w : World) :
  no_token (accessToken (sess st)) = false ->
  accessTokenExpiry (sess st) = Some e ->
  Date_now (world st) = (t, w) ->
  needs_refresh st = Return (e <? t) (mkState (sess st) w (calls st)).
Proof.
  intros Htok Hexp Hnow. unfold needs_refresh, now. run.
  rewrite Htok, Hexp, Hnow. reflexivity.
Qed.

Lemma getAccessToken_run (st : State Session) :
  getAccessToken st
  = match axios_token (token_request (sess st)) (world st) with
    | (Resolved r, w) =>
        Return (mkTokenResponse (access_token (data r)) (expires_in (data r)))
          (mkState (with_accessToken (Some (access_token (data r))) (sess st)) w
             (calls st ++ [TokenExchange (token_request (sess st))]))
    | (Rejected m, w) =>
        Throw (AxiosError m)
          (mkState (sess st) w (calls st ++ [TokenExchange (token_request (sess st))]))
    end.
Proof.
  unfold getAccessToken, await_call. run.
  destruct (axios_token (token_request (sess st)) (world st)) as [[r|m] w];
    reflexivity.
Qed.

(** What [setAccessToken] does after its guard has been evaluated. *)
Lemma setAccessToken_unfold (st : State Session) :
  setAccessToken st
  = match needs_refresh st with
    | Return true st1 =>
        match getAccessToken st1 with
        | Return grant st2 =>
            let '(t, w3) := Date_now (world st2) in
            let s3 :=
              with_accessTokenExpiry (Some (t + (expires_in grant - 10) * 1000))
                (with_accessToken (Some (access_token grant)) (sess st2)) in
            let '(t', w4) := Date_now w3 in
            Return (mkAccessTokenResponse (accessToken s3)
                      (remaining_seconds (accessTokenExpiry s3) t'))
                   (mkState s3 w4 (calls st2))
        | Throw e st2 => Throw e st2
        end
    | Return false st1 =>
        let '(t', w4) := Date_now (world st1) in
        Return (mkAccessTokenResponse (accessToken (sess st1))
                  (remaining_seconds (accessTokenExpiry (sess st1)) t'))
               (mkState (sess st1) w4 (calls st1))
    | Throw e st1 => Throw e st1
    end.
Proof.
  unfold setAccessToken. run.
  destruct (needs_refresh st) as [[|] st1|e st1]; [| |reflexivity].
  - destruct (getAccessToken st1) as [grant st2|e st2]; [|reflexivity].
    unfold now. run.
    destruct (Date_now (world st2)) as [t w3]. run.
    destruct (Date_now w3) as [t' w4]. reflexivity.
  - unfold now. run. destruct (Date_now (world st1)) as [t' w4]. reflexivity.
Qed.

(** The calls [setAccessToken] adds to the trace: one token exchange when
    the guard fires, whether the exchange succeeds or not, none otherwise. *)
Lemma setAccessToken_calls (st : State Session) :
  calls (final (setAccessToken st))
  = if stale (sess st) (fst (Date_now (world st)))
    then (calls st ++ [TokenExchange (token_request (sess st))])%list
    else calls st.
Proof.
  rewrite setAccessToken_unfold.
  destruct (needs_refresh_run st) as [w1 ->].
  destruct (stale (sess st) (fst (Date_now (world st)))).
  - rewrite getAccessToken_run. cbn [sess world calls].
    destruct (axios_token (token_request (sess st)) w1) as [[r|m] w2].
    + cbn [sess world calls]. destruct (Date_now w2) as [t w3].
      destruct (Date_now w3) as [t' w4]. reflexivity.
    + reflexivity.
  - cbn [sess world calls]. destruct (Date_now w1) as [t' w4]. reflexivity.
Qed.

(** When the guard does not fire, the session is left as it was. *)
Lemma setAccessToken_fresh_session (st : State Session) :
  stale (sess st) (fst (Date_now (world st))) = false ->
  sess (final (setAccessToken st)) = sess st
  /\ thrown (setAccessToken st) = None.
Proof.
  intros Hfresh. rewrite setAccessToken_unfold.
  destruct (needs_refresh_run st) as [w1 ->]. rewrite Hfresh.
  cbn [sess world calls]. destruct (Date_now w1) as [t' w4]. split; reflexivity.
Qed.

Lemma token_exchanges_snoc (cs : list Call) (r : Request) :
  token_exchanges (cs ++ [TokenExchange r])%list = S (token_exchanges cs).
Proof.
  unfold token_exchanges. rewrite List.filter_app, List.length_app.
  cbn. lia.
Qed.

(** C2, as the code has it. (1) A refresh stores the granted token and the
    expiry [t + (expires_in - 10) * 1000], where [t] is the clock reading
    taken when the grant is stored; for [expires_in = 60] that is at most
    (indeed exactly) [t + 50] seconds. (2) A cached token whose expiry is
    not before the current clock reading, the exact boundary [expiry = now]
    included, is still treated as valid: nothing is exchanged and the
    session is untouched. (3) Once the expiry is strictly before the clock
    reading, the token is exchanged. *)
Theorem setAccessToken_expiry_margin (st : State Session) :
  (forall st1 grant st2 t w,
      needs_refresh st = Return true st1 ->
      getAccessToken st1 = Return grant st2 ->
      Date_now (world st2) = (t, w) ->
      accessToken (sess (final (setAccessToken st))) = Some (access_token grant)
      /\ accessTokenExpiry (sess (final (setAccessToken st)))
         = Some (t + (expires_in grant - 10) * 1000)
      /\ (expires_in grant = 60 ->
          exists expiry,
            accessTokenExpiry (sess (final (setAccessToken st))) = Some expiry
            /\ expiry <= t + 50 * 1000))
  /\ (forall e t w,
       no_token (accessToken (sess st)) = false ->
       accessTokenExpiry (sess st) = Some e ->
       Date_now (world st) = (t, w) ->
       t <= e ->
       sess (final (setAccessToken st)) = sess st
       /\ calls (final (setAccessToken st)) = calls st)
  /\ (forall e t w,
       accessTokenExpiry (sess st) = Some e ->
       Date_now (world st) = (t, w) ->
       e < t ->
       token_exchanges (calls (final (setAccessToken st)))
       = S (token_exchanges (calls st))).
Proof.
  split; [|split].
  - intros st1 grant st2 t w Hguard Hgrant Hnow.
    rewrite setAccessToken_unfold, Hguard, Hgrant, Hnow.
    destruct (Date_now w) as [t' w4]. cbn [final sess].
    cbn [with_accessTokenExpiry with_accessToken accessToken accessTokenExpiry].
    split; [reflexivity|]. split; [reflexivity|].
    intros ->. eexists. split; [reflexivity|]. lia.
  - intros e t w Htok Hexp Hnow Hle.
    assert (Hfresh : stale (sess st) (fst (Date_now (world st))) = false).
    { unfold stale. rewrite Htok, Hexp, Hnow. cbn. apply Z.ltb_ge. exact Hle. }
    split.
    + apply setAccessToken_fresh_session. exact Hfresh.
    + rewrite setAccessToken_calls, Hfresh. reflexivity.
  - intros e t w Hexp Hnow Hlt.
    rewrite setAccessToken_calls.
    assert (Hstale : stale (sess st) (fst (Date_now (world st))) = true).
    { unfold stale. rewrite Hexp, Hnow. cbn.
      apply orb_true_iff. right. apply Z.ltb_lt. exact Hlt. }
    rewrite Hstale. apply token_exchanges_snoc.
Qed.

(** *** Header composition with a public key *)

(** With a public key the composer leaves the state where
    [setAccessToken] left it, whether it returns headers or throws. *)
Lemma public_key_bearer_final (st : State Session) :
  _isKeySecret (sess st) = false ->
  final (_getAuthHeadersAudienceEndpoints st) = final (setAccessToken st).
Proof.
  intros Hpublic. unfold _getAuthHeadersAudienceEndpoints. run.
  rewrite Hpublic.
  destruct (setAccessToken st) as [r st1|e st1]; [|reflexivity].
  cbn [final]. destruct (no_token (accessToken (sess st1))); reflexivity.
Qed.

(** C6, as the code has it. With a public key (no [s_] prefix) and [t]
    the current clock reading, one bearer-mode header composition makes
    exactly one token exchange when the token is absent or empty, or the
    expiry is absent, or the expiry is strictly before [t]; it makes no
    call at all when a non-empty token is cached with an expiry [e] such
    that [t <= e], the boundary [e = t] included. *)
Theorem public_key_bearer_exchanges (st : State Session) (t : Z) (w : World) :
  String.prefix SECRET_API_KEY_PREFIX (apiKey (sess st)) = false ->
  Date_now (world st) = (t, w) ->
  (no_token (accessToken (sess st)) = true
   \/ accessTokenExpiry (sess st) = None
   \/ (exists e, accessTokenExpiry (sess st) = Some e /\ e < t) ->
   token_exchanges (calls (final (_getAuthHeadersAudienceEndpoints st)))
   = S (token_exchanges (calls st)))
  /\ (no_token (accessToken (sess st)) = false ->
      (exists e, accessTokenExpiry (sess st) = Some e /\ t <= e) ->
      calls (final (_getAuthHeadersAudienceEndpoints st)) = calls st).
Proof.
  intros Hpublic Hnow. rewrite <- _isKeySecret_spec in Hpublic.
  rewrite (public_key_bearer_final st Hpublic), setAccessToken_calls.
  unfold stale. rewrite Hnow. cbn [fst]. split.
  - intros Hstale.
    assert (no_token (accessToken (sess st))
            || match accessTokenExpiry (sess st) with
               | Some expiry => expiry <? t
               | None => true
               end = true) as ->.
    { apply orb_true_iff.
      destruct Hstale as [Hno|[Hnone|[e [He Hlt]]]].
      - left. exact Hno.
      - right. rewrite Hnone. reflexivity.
      - right. rewrite He. apply Z.ltb_lt. exact Hlt. }
    apply token_exchanges_snoc.
  - intros Htok [e [He Hle]]. rewrite Htok, He. cbn [orb].
    replace (e <? t) with false; [reflexivity|].
    symmetry. apply Z.ltb_ge. exact Hle.
Qed.

(** *** setUserId *)

(** In the TypeScript client, setting the userId the session already has
    returns at once and leaves the whole state (session, world, trace of
    calls) as it was. *)
Lemma setUserId_current_noop (st : State Session) :
  setUserId (userId (sess st)) st = Return tt st.
Proof.
  unfold setUserId. run. rewrite String.eqb_refl. reflexivity.
Qed.

(** C3. In the TypeScript client, calling [setUserId] with the userId the
    session already has is a no-op: it returns without an error, in the
    state it started from, so userId, accessToken and accessTokenExpiry are
    unchanged and no token is exchanged; calling it again does the same. *)
Theorem setUserId_same_id_is_noop (st : State Session) (newId : string) :
  newId = userId (sess st) ->
  setUserId newId st = Return tt st
  /\ thrown (setUserId newId st) = None
  /\ userId (sess (final (setUserId newId st))) = userId (sess st)
  /\ accessToken (sess (final (setUserId newId st))) = accessToken (sess st)
  /\ accessTokenExpiry (sess (final (setUserId newId st))) = accessTokenExpiry (sess st)
  /\ calls (final (setUserId newId st)) = calls st
  /\ token_exchanges (calls (final (setUserId newId st))) = token_exchanges (calls st)
  /\ setUserId newId (final (setUserId newId st)) = Return tt st.
Proof.
  intros ->. rewrite setUserId_current_noop. cbn [final thrown].
  repeat split. apply setUserId_current_noop.
Qed.

(** C8, as the code has it. An empty userId makes [setUserId] throw
    [Error("The parameter userId must have length")] with the state left
    as it was: always in the legacy client, and in the TypeScript client
    whenever the session's current userId is not itself empty. In the
    TypeScript client an empty argument that equals the current userId
    returns without an error (and without a change). *)
Theorem setUserId_empty (st : State Session) (lst : State Legacy.Session)
    (newId : string) :
  String.length newId = 0%nat ->
  (userId (sess st) <> newId ->
   setUserId newId st = Throw (Error "The parameter userId must have length") st)
  /\ (userId (sess st) = newId -> setUserId newId st = Return tt st)
  /\ Legacy.setUserId newId lst
     = Throw (Error "The parameter userId must have length") lst.
Proof.
  intros Hlen. destruct newId as [|c rest]; [|discriminate]. split; [|split].
  - intros Hne. unfold setUserId. run.
    destruct (String.eqb_spec "" (userId (sess st))) as [Heq|_]; [congruence|].
    reflexivity.
  - intros <-. apply setUserId_current_noop.
  - reflexivity.
Qed.

(** *** The dispatcher *)

(** [_doFetch] in three steps: compose the headers, make the one call,
    shape the response. *)
Lemma _doFetch_unfold url method auth body deprecated (st : State Session) :
  _doFetch url method auth body deprecated st
  = match auth_headers auth st with
    | Return authHeaders st1 =>
        match await_call EndpointCall axios
                (dispatch_request (sess st1) url method body
                   (spread _commonRequestHeaders authHeaders)) st1 with
        | Return response st2 => lift (shape_response method deprecated response) st2
        | Throw e st2 => Throw e st2
        end
    | Throw e st1 => Throw e st1
    end.
Proof.
  unfold _doFetch, auth_headers. run.
  destruct (match auth with
            | bearer => _getAuthHeadersAudienceEndpoints
            | key => _
            end st) as [authHeaders st1|e st1]; [|reflexivity].
  unfold dispatch_request, shape_response, decorate.
  destruct method;
    (destruct (await_call EndpointCall axios _ st1) as [response st2|e st2];
     [|reflexivity]);
    try reflexivity;
    (destruct (deprecated && negb (Array_isArray (data response))); [|reflexivity]);
    (destruct (js_get (data response) "error") as [e|v]; [reflexivity|]);
    (destruct (js_plus_string (if truthy v then v else JStr "") DEPRECATION_NOTICE);
     reflexivity).
Qed.

Lemma _doFetch_resolved url method auth body deprecated
    (st st1 : State Session) authHeaders response w :
  auth_headers auth st = Return authHeaders st1 ->
  axios (dispatch_request (sess st1) url method body
           (spread _commonRequestHeaders authHeaders)) (world st1)
  = (Resolved response, w) ->
  _doFetch url method auth body deprecated st
  = lift (shape_response method deprecated response)
      (mkState (sess st1) w
         (calls st1
          ++ [EndpointCall
                (dispatch_request (sess st1) url method body
                   (spread _commonRequestHeaders authHeaders))])).
Proof.
  intros Hheaders Hcall. rewrite _doFetch_unfold, Hheaders.
  unfold await_call. rewrite Hcall. reflexivity.
Qed.

(** *** Deprecation notice *)








(** *** The trace of endpoint calls *)

Lemma endpoint_calls_app (cs ds : list Call) :
  endpoint_calls (cs ++ ds) = (endpoint_calls cs ++ endpoint_calls ds)%list.
Proof. unfold endpoint_calls. apply List.flat_map_app. Qed.

Lemma setAccessToken_endpoint (st : State Session) :
  _endpoint (sess (final (setAccessToken st))) = _endpoint (sess st).
Proof.
  rewrite setAccessToken_unfold.
  destruct (needs_refresh_run st) as [w1 ->].
  destruct (stale (sess st) (fst (Date_now (world st)))).
  - rewrite getAccessToken_run. cbn [sess world calls].
    destruct (axios_token (token_request (sess st)) w1) as [[r|m] w2].
    + cbn [sess world calls]. destruct (Date_now w2) as [t w3].
      destruct (Date_now w3) as [t' w4]. reflexivity.
    + reflexivity.
  - cbn [sess world calls]. destruct (Date_now w1) as [t' w4]. reflexivity.
Qed.

(** Composing headers makes no endpoint call and keeps the base address. *)
Lemma auth_headers_trace auth (st : State Session) :
  endpoint_calls (calls (final (auth_headers auth st))) = endpoint_calls (calls st)
  /\ _endpoint (sess (final (auth_headers auth st))) = _endpoint (sess st).
Proof.
  destruct auth; cbn [auth_headers]; [|split; reflexivity].
  destruct (_isKeySecret (sess st)) eqn:Hkey.
  - unfold _getAuthHeadersAudienceEndpoints. run. rewrite Hkey. split; reflexivity.
  - rewrite (public_key_bearer_final st Hkey). split.
    + rewrite setAccessToken_calls.
      destruct (stale _ _); [|reflexivity].
      rewrite endpoint_calls_app. cbn. apply List.app_nil_r.
    + apply setAccessToken_endpoint.
Qed.

(** A [_doFetch] that returns has made exactly one endpoint call: the
    given verb on the given path, with [body || {}] for POST and PATCH. *)
Lemma _doFetch_trace url method auth body deprecated (st st' : State Session) v :
  _doFetch url method auth body deprecated st = Return v st' ->
  exists headers,
    endpoint_calls (calls st')
    = (endpoint_calls (calls st)
       ++ [dispatch_request (sess st) url method body headers])%list
    /\ _endpoint (sess st') = _endpoint (sess st).
Proof.
  rewrite _doFetch_unfold. intros Hrun.
  destruct (auth_headers_trace auth st) as [Hcalls Hendpoint].
  destruct (auth_headers auth st) as [authHeaders st1|e st1]; [|discriminate].
  cbn [final] in *. unfold await_call in Hrun.
  destruct (axios _ (world st1)) as [[response|m] w]; [|discriminate].
  destruct (shape_response method deprecated response) as [e|x]; [discriminate|].
  cbn [lift] in Hrun. unfold pure in Hrun. injection Hrun as _ <-.
  exists (spread _commonRequestHeaders authHeaders). cbn [calls sess]. split.
  - rewrite endpoint_calls_app, Hcalls. cbn.
    unfold dispatch_request. rewrite Hendpoint. reflexivity.
  - exact Hendpoint.
Qed.

(** *** initialiseAndProgressUser *)

(** The branch in which the user is missing: one [createUser] POST for
    the given timeline between the two GETs, and the [user] field is the
    [data] of its response. *)
Lemma initialise_creates_missing_user timelineId disableTimeGuards pauseAtBeats
    maxSteps (st st1 st2 st3 : State Session) r1 d r2 u r3 ev :
  getUser st = Return r1 st1 ->
  js_get r1 "data" = inr d ->
  loosely_null d = true ->
  createUser timelineId disableTimeGuards pauseAtBeats maxSteps st1 = Return r2 st2 ->
  js_get r2 "data" = inr u ->
  getUserTimelineEvents st2 = Return r3 st3 ->
  js_get r3 "data" = inr ev ->
  initialiseAndProgressUser timelineId disableTimeGuards pauseAtBeats maxSteps st
  = Return (JObj [("user", u); ("userTimelineEvents", js_or ev (JArr []))]) st3
  /\ exists h1 h2 h3,
      endpoint_calls (calls st3)
      = (endpoint_calls (calls st)
         ++ [mkRequest GET (_endpoint (sess st) ++ "/users/me") None h1;
             mkRequest POST (_endpoint (sess st) ++ "/users")
               (Some (createUser_body timelineId disableTimeGuards pauseAtBeats
                        maxSteps)) h2;
             mkRequest GET (_endpoint (sess st) ++ "/user-timeline-events") None h3])%list.
Proof.
  intros Hget Hd Hnull Hcreate Hu Hevents Hev. split.
  - unfold initialiseAndProgressUser. run.
    rewrite Hget; cbn beta iota. rewrite Hd; cbn beta iota.
    rewrite Hnull, Hcreate; cbn beta iota. rewrite Hu; cbn beta iota.
    rewrite Hevents; cbn beta iota. rewrite Hev. reflexivity.
  - unfold getUser in Hget. unfold createUser in Hcreate.
    unfold getUserTimelineEvents in Hevents.
    destruct (_doFetch_trace _ _ _ _ _ _ _ _ Hget) as [h1 [H1 E1]].
    destruct (_doFetch_trace _ _ _ _ _ _ _ _ Hcreate) as [h2 [H2 E2]].
    destruct (_doFetch_trace _ _ _ _ _ _ _ _ Hevents) as [h3 [H3 E3]].
    exists h1, h2, h3. rewrite H3, H2, H1. unfold dispatch_request.
    rewrite E2, E1. rewrite <- !List.app_assoc. reflexivity.
Qed.

(** C5, second half, as the code has it. When the [data] of the
    [getUser] response is neither [null] nor [undefined], no [createUser]
    call is made (the only endpoint calls are the two GETs) and the
    [user] field of the result is [undefined]: the fetched user is not
    put there. *)
Theorem initialise_existing_user_left_undefined timelineId disableTimeGuards
    pauseAtBeats maxSteps (st st1 st3 : State Session) r1 d r3 ev :
  getUser st = Return r1 st1 ->
  js_get r1 "data" = inr d ->
  loosely_null d = false ->
  getUserTimelineEvents st1 = Return r3 st3 ->
  js_get r3 "data" = inr ev ->
  initialiseAndProgressUser timelineId disableTimeGuards pauseAtBeats maxSteps st
  = Return (JObj [("user", JUndefined); ("userTimelineEvents", js_or ev (JArr []))])
      st3
  /\ exists h1 h3,
      endpoint_calls (calls st3)
      = (endpoint_calls (calls st)
         ++ [mkRequest GET (_endpoint (sess st) ++ "/users/me") None h1;
             mkRequest GET (_endpoint (sess st) ++ "/user-timeline-events") None h3])%list.
Proof.
  intros Hget Hd Hnull Hevents Hev. split.
  - unfold initialiseAndProgressUser. run.
    rewrite Hget; cbn beta iota. rewrite Hd; cbn beta iota.
    rewrite Hnull, Hevents; cbn beta iota. rewrite Hev. reflexivity.
  - unfold getUser in Hget. unfold getUserTimelineEvents in Hevents.
    destruct (_doFetch_trace _ _ _ _ _ _ _ _ Hget) as [h1 [H1 E1]].
    destruct (_doFetch_trace _ _ _ _ _ _ _ _ Hevents) as [h3 [H3 E3]].
    exists h1, h3. rewrite H3, H1. unfold dispatch_request.
    rewrite E1. rewrite <- !List.app_assoc. reflexivity.
Qed.

Lemma loosely_null_falsy (v : JSValue) : loosely_null v = true -> truthy v = false.
Proof. destruct v; cbn; congruence. Qed.

(** C10, as the code has it. Whenever [initialiseAndProgressUser]
    returns, its result is [{user, userTimelineEvents}] where
    [userTimelineEvents] is neither [null] nor [undefined]: it is the
    [data] field of the [getUserTimelineEvents] response when that field
    is truthy (any array or object is), and the empty array when the
    field is falsy, that is [null], absent, [false], [0] or the empty
    string. *)
Theorem initialise_events_default timelineId disableTimeGuards pauseAtBeats
    maxSteps (st st' : State Session) result :
  initialiseAndProgressUser timelineId disableTimeGuards pauseAtBeats maxSteps st
  = Return result st' ->
  exists user events st2 response eventsData,
    getUserTimelineEvents st2 = Return response st'
    /\ js_get response "data" = inr eventsData
    /\ result = JObj [("user", user); ("userTimelineEvents", events)]
    /\ loosely_null events = false
    /\ (loosely_null eventsData = true -> events = JArr [])
    /\ (truthy eventsData = false -> events = JArr [])
    /\ (truthy eventsData = true -> events = eventsData).
Proof.
  unfold initialiseAndProgressUser. run. intros Hrun.
  destruct (getUser st) as [r1 st1|e st1]; [|discriminate].
  destruct (js_get r1 "data") as [e|d]; [discriminate|].
  set (branch := if loosely_null d then _ else _) in Hrun.
  destruct (branch st1) as [user st2|e st2]; [|discriminate].
  destruct (getUserTimelineEvents st2) as [r3 st3|e st3] eqn:Hevents; [|discriminate].
  destruct (js_get r3 "data") as [e|ev] eqn:Hev; [discriminate|].
  injection Hrun as <- <-.
  exists user, (js_or ev (JArr [])), st2, r3, ev.
  split; [exact Hevents|]. split; [exact Hev|]. split; [reflexivity|].
  unfold js_or. split; [|split; [|split]].
  - destruct ev as [| |[|]|n|s|items|fields]; cbn; try reflexivity.
    + destruct (n =? 0); reflexivity.
    + destruct (String.eqb s ""); reflexivity.
  - intros Hnull. rewrite (loosely_null_falsy _ Hnull). reflexivity.
  - intros ->. reflexivity.
  - intros ->. reflexivity.
Qed.
End Properties.

(** * The dispatcher on axios with its default settings *)

Section DefaultAxios.
Context {network : Host}.

(** C4, as the code runs on axios. A DELETE is dispatched through
    [_doFetch] on axios with its default settings, and the network delivers
    a response to it. If the status is 2xx, [_doFetch] returns exactly
    [{data: null, error: null, meta: null, status: 204}]. If the status is
    any other (and not 0), 404 included, axios rejects the response, so
    [_doFetch] throws [Request failed with status code N] and returns
    nothing: the envelope with [error] set to the status text is never
    built. *)
Theorem delete_under_default_axios url auth body deprecated
    (st st1 : State (host := axios_defaults network) Session)
    authHeaders response w :
  auth_headers (host := axios_defaults network) auth st = Return authHeaders st1 ->
  @axios network
    (dispatch_request (sess st1) url DELETE body
       (spread _commonRequestHeaders authHeaders)) (world st1)
  = (Resolved response, w) ->
  (200 <= status response < 300 ->
   returned (_doFetch (host := axios_defaults network) url DELETE auth body deprecated st)
   = Some (JObj [("data", JNull); ("error", JNull); ("meta", JNull);
                 ("status", JNum 204)]))
  /\ (status response <> 0 ->
      ~ (200 <= status response < 300) ->
      returned (_doFetch (host := axios_defaults network) url DELETE auth body
                  deprecated st) = None
      /\ thrown (_doFetch (host := axios_defaults network) url DELETE auth body
                   deprecated st)
         = Some (AxiosError ("Request failed with status code "
                             ++ @Number_toString network (status response)))).
Proof.
  intros Hheaders Hcall.
  rewrite (_doFetch_unfold (host := axios_defaults network)), Hheaders.
  unfold await_call. cbn [axios axios_defaults]. rewrite Hcall.
  unfold settle, validateStatus. split.
  - intros [Hlo Hhi].
    replace (200 <=? status response) with true by (symmetry; apply Z.leb_le; lia).
    replace (status response <? 300) with true by (symmetry; apply Z.ltb_lt; lia).
    rewrite orb_true_r. cbn [shape_response lift]. unfold pure, delete_envelope.
    cbn [returned].
    replace (400 <=? status response) with false by (symmetry; apply Z.leb_gt; lia).
    reflexivity.
  - intros Hnonzero Hfail.
    replace (status response =? 0) with false
      by (symmetry; apply Z.eqb_neq; exact Hnonzero).
    assert ((200 <=? status response) && (status response <? 300) = false) as ->.
    { destruct (Z.leb_spec 200 (status response)),
        (Z.ltb_spec (status response) 300); try reflexivity.
      exfalso. apply Hfail. lia. }
    cbn [orb]. split; reflexivity.
Qed.
End DefaultAxios.

(** * The properties on concrete inputs *)

Section Concrete.
Local Existing Instance scripted.

Example indexOf_examples :
  indexOf "s_3f9a" "s_" = 0 /\ indexOf "abs_" "s_" = 2 /\ indexOf "v_71c2" "s_" = -1.
Proof. repeat split. Qed.

Example js_to_string_example :
  js_to_string (JArr [JNum (-5); JNull; JStr "a"; JArr [JNum 12; JBool true]; JObj []])
  = inr "-5,,a,12,true,[object Object]".
Proof. reflexivity. Qed.

Example decorate_prior_error :
  decorate (JObj [("data", JArr []); ("error", JStr "Not found.")])
  = inr (JObj [("data", JArr []);
               ("error", JStr ("Not found." ++ DEPRECATION_NOTICE))]).
Proof. reflexivity. Qed.

Example decorate_empty_text_body :
  decorate (JStr "") = inl (TypeError "Cannot create property 'error' on string ''").
Proof. reflexivity. Qed.

(** A public key and no token yet: [getUser] makes one token exchange and
    then one GET with a [Bearer] header. *)
Example getUser_first_call :
  let run := getUser (start (public_session None None)
                        (mkScript 1000 [ok (mkTokenResponse "fresh" 60)]
                           [ok existing_user])) in
  returned run = Some existing_user
  /\ token_exchanges (calls (final run)) = 1%nat
  /\ (exists r, endpoint_calls (calls (final run)) = [r]
                /\ req_method r = GET
                /\ req_url r = base_url ++ "/users/me"
                /\ req_headers r !! "Authorization" = Some "Bearer fresh")
  /\ accessTokenExpiry (sess (final run)) = Some 51000.
Proof.
  cbv zeta. split; [reflexivity|]. split; [reflexivity|]. split; [|reflexivity].
  eexists. split; [vm_compute; reflexivity|]. repeat split.
Qed.

(** The user is missing: one POST /users for timeline [t1] between the two
    GETs, and [user] is the [data] of its response. *)
Example initialise_creates_missing_user_run :
  exists st3,
    initialiseAndProgressUser "t1" false false None
      (facing [ok (JObj [("data", JNull)]);
               ok (JObj [("data", JObj [("id", JStr "new")])]);
               ok (JObj [("data", JArr [JStr "e1"])])])
    = Return (JObj [("user", JObj [("id", JStr "new")]);
                    ("userTimelineEvents", JArr [JStr "e1"])]) st3
    /\ exists h1 h2 h3,
        endpoint_calls (calls st3)
        = [mkRequest GET (base_url ++ "/users/me") None h1;
           mkRequest POST (base_url ++ "/users")
             (Some (createUser_body "t1" false false None)) h2;
           mkRequest GET (base_url ++ "/user-timeline-events") None h3].
Proof.
  eexists.
  apply (initialise_creates_missing_user "t1" false false None
           (facing [ok (JObj [("data", JNull)]);
                    ok (JObj [("data", JObj [("id", JStr "new")])]);
                    ok (JObj [("data", JArr [JStr "e1"])])])
           _ _ _ (JObj [("data", JNull)]) JNull
           (JObj [("data", JObj [("id", JStr "new")])]) (JObj [("id", JStr "new")])
           (JObj [("data", JArr [JStr "e1"])]) (JArr [JStr "e1"])
           eq_refl eq_refl eq_refl eq_refl eq_refl eq_refl eq_refl).
Qed.

Lemma secret_key_bearer_headers_witness :
  exists headers,
    _getAuthHeadersAudienceEndpoints (start secret_session (mkScript 1000 [] []))
    = Return headers (start secret_session (mkScript 1000 [] []))
    /\ token_exchanges
         (calls (final (_getAuthHeadersAudienceEndpoints
                          (start secret_session (mkScript 1000 [] [])))))
       = token_exchanges (calls (start secret_session (mkScript 1000 [] [])))
    /\ headers !! "Authorization" = Some "s_3f9a"
    /\ headers !! "Fictioneers-User-ID" = Some "user-1".
Proof.
  apply (secret_key_bearer_headers (start secret_session (mkScript 1000 [] []))).
  reflexivity.
Defined.

(** C2 fails as stated: at the exact boundary the cached token is not
    refreshed. *)
Lemma boundary_token_not_refreshed :
  accessToken (sess boundary_state) = Some "tok"
  /\ accessTokenExpiry (sess boundary_state) = Some (fst (Date_now (world boundary_state)))
  /\ ~ (token_exchanges (calls boundary_state)
        < token_exchanges (calls (final (setAccessToken boundary_state))))%nat
  /\ accessToken (sess (final (setAccessToken boundary_state))) = Some "tok".
Proof.
  split; [reflexivity|]. split; [reflexivity|]. split; [|reflexivity].
  vm_compute. lia.
Qed.

Lemma setAccessToken_expiry_margin_witness :
  (accessToken (sess (final (setAccessToken tokenless_state))) = Some "fresh"
   /\ accessTokenExpiry (sess (final (setAccessToken tokenless_state)))
      = Some (1000 + (60 - 10) * 1000)
   /\ exists expiry,
       accessTokenExpiry (sess (final (setAccessToken tokenless_state))) = Some expiry
       /\ expiry <= 1000 + 50 * 1000)
  /\ (sess (final (setAccessToken boundary_state)) = sess boundary_state
      /\ calls (final (setAccessToken boundary_state)) = calls boundary_state)
  /\ token_exchanges (calls (final (setAccessToken expired_state)))
     = S (token_exchanges (calls expired_state)).
Proof.
  split; [|split].
  - destruct (proj1 (setAccessToken_expiry_margin tokenless_state)
                _ _ _ 1000 _ eq_refl eq_refl eq_refl) as [Htok [Hexp Hle]].
    split; [exact Htok|]. split; [exact Hexp|]. apply Hle. reflexivity.
  - apply (proj1 (proj2 (setAccessToken_expiry_margin boundary_state))
             1000 1000 (world boundary_state));
      [reflexivity|reflexivity|reflexivity|lia].
  - apply (proj2 (proj2 (setAccessToken_expiry_margin expired_state))
             999 1000 (world expired_state));
      [reflexivity|reflexivity|lia].
Defined.

(** C6 fails as stated: with a public key and a cached token whose
    expiry is the current clock reading, hence not in the future, no
    token exchange is made. *)
Lemma boundary_bearer_makes_no_exchange :
  String.prefix SECRET_API_KEY_PREFIX (apiKey (sess boundary_state)) = false
  /\ accessTokenExpiry (sess boundary_state) = Some 1000
  /\ fst (Date_now (world boundary_state)) = 1000
  /\ ~ (fst (Date_now (world boundary_state)) < 1000)
  /\ token_exchanges (calls (final (_getAuthHeadersAudienceEndpoints boundary_state)))
     <> S (token_exchanges (calls boundary_state)).
Proof.
  split; [reflexivity|]. split; [reflexivity|]. split; [reflexivity|].
  split; [cbn; lia|]. vm_compute. discriminate.
Qed.

Lemma public_key_bearer_exchanges_witness :
  token_exchanges (calls (final (_getAuthHeadersAudienceEndpoints tokenless_state)))
  = S (token_exchanges (calls tokenless_state))
  /\ token_exchanges (calls (final (_getAuthHeadersAudienceEndpoints expired_state)))
     = S (token_exchanges (calls expired_state))
  /\ calls (final (_getAuthHeadersAudienceEndpoints boundary_state))
     = calls boundary_state.
Proof.
  split; [|split].
  - apply (proj1 (public_key_bearer_exchanges tokenless_state 1000
                    (world tokenless_state) eq_refl eq_refl)).
    left. reflexivity.
  - apply (proj1 (public_key_bearer_exchanges expired_state 1000
                    (world expired_state) eq_refl eq_refl)).
    right. right. exists 999. split; [reflexivity|lia].
  - apply (proj2 (public_key_bearer_exchanges boundary_state 1000
                    (world boundary_state) eq_refl eq_refl));
      [reflexivity|]. exists 1000. split; [reflexivity|lia].
Defined.

Lemma setUserId_same_id_is_noop_witness :
  setUserId "user-1" boundary_state = Return tt boundary_state
  /\ accessToken (sess (final (setUserId "user-1" boundary_state))) = Some "tok"
  /\ accessTokenExpiry (sess (final (setUserId "user-1" boundary_state))) = Some 1000
  /\ token_exchanges (calls (final (setUserId "user-1" boundary_state))) = 0%nat.
Proof.
  destruct (setUserId_same_id_is_noop boundary_state "user-1" eq_refl)
    as [Hrun [_ [_ [Htok [Hexp [_ [Hcalls _]]]]]]].
  split; [exact Hrun|]. split; [exact Htok|]. split; [exact Hexp|exact Hcalls].
Defined.

(** C8 fails as stated: in the TypeScript client an empty userId given to
    a session whose userId is already empty raises no error. *)
Lemma empty_id_on_empty_session_returns :
  String.length "" = 0%nat
  /\ userId (sess empty_id_state) = ""
  /\ setUserId "" empty_id_state = Return tt empty_id_state
  /\ ~ (exists e st', setUserId "" empty_id_state = Throw e st').
Proof.
  split; [reflexivity|]. split; [reflexivity|]. split; [reflexivity|].
  intros [e [st' H]]. discriminate H.
Qed.

Lemma setUserId_empty_witness :
  setUserId "" tokenless_state
  = Throw (Error "The parameter userId must have length") tokenless_state
  /\ setUserId "" empty_id_state = Return tt empty_id_state
  /\ Legacy.setUserId "" legacy_state
     = Throw (Error "The parameter userId must have length") legacy_state.
Proof.
  split; [|split].
  - apply (proj1 (setUserId_empty tokenless_state legacy_state "" eq_refl)).
    discriminate.
  - apply (proj1 (proj2 (setUserId_empty empty_id_state legacy_state "" eq_refl))).
    reflexivity.
  - apply (proj2 (proj2 (setUserId_empty tokenless_state legacy_state "" eq_refl))).
Defined.

(** C9 fails as stated: after [getAccessToken] on a new session the
    token is there and the expiry is not. *)
Lemma getAccessToken_leaves_token_without_expiry :
  cache_paired (sess new_state) = true
  /\ exists grant st',
      getAccessToken new_state = Return grant st'
      /\ accessToken (sess st') = Some "fresh"
      /\ accessTokenExpiry (sess st') = None
      /\ cache_paired (sess st') = false.
Proof.
  split; [reflexivity|]. eexists. eexists.
  split; [vm_compute; reflexivity|]. repeat split.
Qed.



(** The failing input of C5: the user exists already. *)
Lemma initialise_existing_user_left_undefined_witness :
  exists st3,
    initialiseAndProgressUser "t1" false false None
      (facing [ok existing_user; ok (JObj [("data", JArr [JStr "e1"])])])
    = Return (JObj [("user", JUndefined); ("userTimelineEvents", JArr [JStr "e1"])]) st3
    /\ exists h1 h3,
        endpoint_calls (calls st3)
        = [mkRequest GET (base_url ++ "/users/me") None h1;
           mkRequest GET (base_url ++ "/user-timeline-events") None h3].
Proof.
  eexists.
  apply (initialise_existing_user_left_undefined "t1" false false None
           (facing [ok existing_user; ok (JObj [("data", JArr [JStr "e1"])])])
           _ _ existing_user _ (JObj [("data", JArr [JStr "e1"])]) (JArr [JStr "e1"])
           eq_refl eq_refl eq_refl eq_refl eq_refl).
Defined.

(** C10 fails as stated: a [data] field that is neither [null] nor absent
    but falsy is replaced by the empty array. *)
Lemma falsy_events_data_replaced :
  loosely_null (JBool false) = false
  /\ exists user st',
      initialiseAndProgressUser "t1" false false None
        (facing [ok existing_user; ok (JObj [("data", JBool false)])])
      = Return (JObj [("user", user); ("userTimelineEvents", JArr [])]) st'
      /\ JArr [] <> JBool false.
Proof.
  split; [reflexivity|]. eexists. eexists.
  split; [vm_compute; reflexivity|discriminate].
Qed.

Lemma initialise_events_default_witness :
  exists user events,
    returned (initialiseAndProgressUser "t1" false false None
                (facing [ok existing_user; ok (JObj [("data", JArr [JStr "e1"])])]))
    = Some (JObj [("user", user); ("userTimelineEvents", events)])
    /\ loosely_null events = false.
Proof.
  destruct (initialise_events_default "t1" false false None
              (facing [ok existing_user; ok (JObj [("data", JArr [JStr "e1"])])])
              _ _ eq_refl)
    as [user [events [st2 [response [eventsData [_ [_ [Hres [Hnn _]]]]]]]]].
  exists user, events. split; [|exact Hnn].
  rewrite <- Hres. reflexivity.
Defined.
End Concrete.


(** * Further properties of the client *)

Section Coverage.
Context {host : Host}.

(** *** Key classification *)

(** A key is secret exactly when it starts with [s_]; a key that holds
    [s_] further on, or only [s], is public. *)
Theorem _isKeySecret_iff_prefix (s : Session) :
  _isKeySecret s = true <-> exists rest, apiKey s = SECRET_API_KEY_PREFIX ++ rest.
Proof.
  rewrite _isKeySecret_spec. unfold SECRET_API_KEY_PREFIX. split.
  - intros Hp. apply String.prefix_correct in Hp.
    destruct (apiKey s) as [|a [|b rest]]; cbn in Hp; try discriminate.
    injection Hp as -> ->. exists rest. reflexivity.
  - intros [rest ->]. apply String.prefix_correct. cbn.
    destruct rest; reflexivity.
Qed.

(** *** Outcomes of setAccessToken *)

Lemma needs_refresh_inv (st st1 : State Session) (b : bool) :
  needs_refresh st = Return b st1 ->
  b = stale (sess st) (fst (Date_now (world st)))
  /\ sess st1 = sess st /\ calls st1 = calls st.
Proof.
  intros Hrun. destruct (needs_refresh_run st) as [w1 Hw]. rewrite Hw in Hrun.
  injection Hrun as <- <-. repeat split.
Qed.

Lemma setAccessToken_rejected_run (st st1 : State Session) m w :
  needs_refresh st = Return true st1 ->
  axios_token (token_request (sess st1)) (world st1) = (Rejected m, w) ->
  setAccessToken st
  = Throw (AxiosError m)
      (mkState (sess st) w (calls st ++ [TokenExchange (token_request (sess st))])).
Proof.
  intros Hguard Hcall. rewrite setAccessToken_unfold, Hguard, getAccessToken_run, Hcall.
  destruct (needs_refresh_inv _ _ _ Hguard) as [_ [-> ->]]. reflexivity.
Qed.

Lemma setAccessToken_resolved_run (st st1 : State Session) r w t w3 t' w4 :
  needs_refresh st = Return true st1 ->
  axios_token (token_request (sess st1)) (world st1) = (Resolved r, w) ->
  Date_now w = (t, w3) ->
  Date_now w3 = (t', w4) ->
  setAccessToken st
  = Return
      (mkAccessTokenResponse (Some (access_token (data r)))
         (remaining_seconds (Some (t + (expires_in (data r) - 10) * 1000)) t'))
      (mkState
         (with_accessTokenExpiry (Some (t + (expires_in (data r) - 10) * 1000))
            (with_accessToken (Some (access_token (data r))) (sess st)))
         w4 (calls st ++ [TokenExchange (token_request (sess st))])).
Proof.
  intros Hguard Hcall Hnow Hnow'.
  rewrite setAccessToken_unfold, Hguard, getAccessToken_run, Hcall.
  destruct (needs_refresh_inv _ _ _ Hguard) as [_ [-> ->]].
  cbn [sess world calls]. rewrite Hnow, Hnow'. reflexivity.
Qed.

Lemma public_key_bearer_run (st : State Session) :
  _isKeySecret (sess st) = false ->
  _getAuthHeadersAudienceEndpoints st
  = match setAccessToken st with
    | Return _ st1 =>
        if no_token (accessToken (sess st1))
        then Throw (Error "Could not assemble auth headers with bearer - no access token") st1
        else Return (<["Authorization" := "Bearer " ++ default "" (accessToken (sess st1))]> ∅)
               st1
    | Throw e st1 => Throw e st1
    end.
Proof.
  intros Hpublic. unfold _getAuthHeadersAudienceEndpoints. run. rewrite Hpublic.
  destruct (setAccessToken st) as [r st1|e st1]; [|reflexivity].
  destruct (no_token (accessToken (sess st1))); reflexivity.
Qed.

Lemma _doFetch_headers_thrown url method auth body deprecated (st st1 : State Session) e :
  auth_headers auth st = Throw e st1 ->
  _doFetch url method auth body deprecated st = Throw e st1.
Proof. intros H. rewrite _doFetch_unfold, H. reflexivity. Qed.

(** A token exchange that the transport rejects: [setAccessToken] throws
    the transport's error, the session keeps the token and expiry it had,
    and the trace gains the one exchange. With a public key every bearer
    call of the dispatcher throws that same error in that same state, so
    the endpoint request is never sent. *)
Theorem rejected_exchange_surfaces (st st1 : State Session) m w :
  needs_refresh st = Return true st1 ->
  axios_token (token_request (sess st1)) (world st1) = (Rejected m, w) ->
  setAccessToken st
  = Throw (AxiosError m)
      (mkState (sess st) w (calls st ++ [TokenExchange (token_request (sess st))]))
  /\ (String.prefix SECRET_API_KEY_PREFIX (apiKey (sess st)) = false ->
      forall url method body deprecated,
        _doFetch url method bearer body deprecated st
        = Throw (AxiosError m)
            (mkState (sess st) w
               (calls st ++ [TokenExchange (token_request (sess st))]))).
Proof.
  intros Hguard Hcall.
  pose proof (setAccessToken_rejected_run _ _ _ _ Hguard Hcall) as Hset.
  split; [exact Hset|].
  intros Hpublic url method body deprecated. rewrite <- _isKeySecret_spec in Hpublic.
  apply _doFetch_headers_thrown. cbn [auth_headers].
  rewrite (public_key_bearer_run st Hpublic), Hset. reflexivity.
Qed.

(** A token endpoint that grants the empty string as token: with a public
    key the header composer stores it, then throws
    [Could not assemble auth headers with bearer - no access token], and a
    bearer call of the dispatcher throws the same without sending the
    endpoint request. *)
Theorem empty_token_grant_throws (st st1 : State Session) r w :
  String.prefix SECRET_API_KEY_PREFIX (apiKey (sess st)) = false ->
  needs_refresh st = Return true st1 ->
  axios_token (token_request (sess st1)) (world st1) = (Resolved r, w) ->
  access_token (data r) = "" ->
  thrown (_getAuthHeadersAudienceEndpoints st)
  = Some (Error "Could not assemble auth headers with bearer - no access token")
  /\ accessToken (sess (final (_getAuthHeadersAudienceEndpoints st))) = Some ""
  /\ forall url method body deprecated,
      thrown (_doFetch url method bearer body deprecated st)
      = Some (Error "Could not assemble auth headers with bearer - no access token")
      /\ endpoint_calls (calls (final (_doFetch url method bearer body deprecated st)))
         = endpoint_calls (calls st).
Proof.
  intros Hpublic Hguard Hcall Hempty. rewrite <- _isKeySecret_spec in Hpublic.
  destruct (Date_now w) as [t w3] eqn:Hnow.
  destruct (Date_now w3) as [t' w4] eqn:Hnow'.
  pose proof (setAccessToken_resolved_run _ _ _ _ _ _ _ _ Hguard Hcall Hnow Hnow') as Hset.
  assert (Hrun : _getAuthHeadersAudienceEndpoints st
                 = Throw (Error "Could not assemble auth headers with bearer - no access token")
                     (mkState
                        (with_accessTokenExpiry
                           (Some (t + (expires_in (data r) - 10) * 1000))
                           (with_accessToken (Some "") (sess st)))
                        w4 (calls st ++ [TokenExchange (token_request (sess st))]))).
  { rewrite (public_key_bearer_run st Hpublic), Hset, Hempty. reflexivity. }
  split; [rewrite Hrun; reflexivity|]. split; [rewrite Hrun; reflexivity|].
  intros url method body deprecated.
  rewrite (_doFetch_headers_thrown url method bearer body deprecated _ _ _ Hrun).
  split; [reflexivity|]. cbn [final calls].
  rewrite endpoint_calls_app. cbn. apply List.app_nil_r.
Qed.

(** The answer of a refreshing [setAccessToken]: the granted token, and as
    [expiresIn] the granted lifetime less the time that passed between
    storing the grant (clock reading [t]) and reporting it (reading [t']).
    The 10 seconds taken off the stored expiry are added back. *)
Theorem setAccessToken_reports_lifetime (st st1 : State Session) r w t w3 t' w4 :
  needs_refresh st = Return true st1 ->
  axios_token (token_request (sess st1)) (world st1) = (Resolved r, w) ->
  Date_now w = (t, w3) ->
  Date_now w3 = (t', w4) ->
  exists report,
    returned (setAccessToken st) = Some report
    /\ accessToken_ report = Some (access_token (data r))
    /\ (expiresIn report
        == inject_Z (expires_in (data r)) - inject_Z (t' - t) / inject_Z 1000)%Q.
Proof.
  intros Hguard Hcall Hnow Hnow'.
  rewrite (setAccessToken_resolved_run _ _ _ _ _ _ _ _ Hguard Hcall Hnow Hnow').
  eexists. split; [reflexivity|]. split; [reflexivity|].
  cbn [expiresIn]. unfold remaining_seconds. cbn [default].
  unfold Qeq, Qdiv, Qminus, Qplus, Qmult, Qopp, Qinv, inject_Z. cbn. lia.
Qed.

(** A grant that lasts less than the 10 second margin is stale as soon as
    it is stored: the next [setAccessToken], at any clock reading that is
    not before the one taken when the grant was stored, exchanges again. *)
Theorem short_grant_is_never_cached (st st1 : State Session) r w t w3 t' w4 t2 w5 :
  needs_refresh st = Return true st1 ->
  axios_token (token_request (sess st1)) (world st1) = (Resolved r, w) ->
  Date_now w = (t, w3) ->
  Date_now w3 = (t', w4) ->
  expires_in (data r) < 10 ->
  Date_now w4 = (t2, w5) ->
  t <= t2 ->
  token_exchanges (calls (final (setAccessToken (final (setAccessToken st)))))
  = S (token_exchanges (calls (final (setAccessToken st)))).
Proof.
  intros Hguard Hcall Hnow Hnow' Hshort Hnext Hle.
  rewrite (setAccessToken_resolved_run _ _ _ _ _ _ _ _ Hguard Hcall Hnow Hnow').
  cbn [final]. rewrite setAccessToken_calls. cbn [sess world calls].
  rewrite Hnext. cbn [fst]. unfold stale.
  cbn [with_accessTokenExpiry with_accessToken accessToken accessTokenExpiry].
  replace (t + (expires_in (data r) - 10) * 1000 <? t2) with true
    by (symmetry; apply Z.ltb_lt; lia).
  rewrite orb_true_r. apply token_exchanges_snoc.
Qed.

(** *** setUserId with a new identity *)

(** With a new userId that has length, [setUserId] is [setAccessToken] run
    on the session with the userId replaced and the token cleared. *)
Lemma setUserId_new_run (st : State Session) (newId : string) :
  newId <> "" ->
  newId <> userId (sess st) ->
  setUserId newId st
  = match setAccessToken
            (mkState (with_accessToken None (with_userId newId (sess st)))
               (world st) (calls st)) with
    | Return _ st' => Return tt st'
    | Throw e st' => Throw e st'
    end.
Proof.
  intros Hlen Hnew. unfold setUserId. run.
  destruct (String.eqb_spec newId (userId (sess st))) as [Heq|_]; [congruence|].
  destruct newId as [|c rest]; [congruence|]. cbn [String.length Nat.eqb negb].
  destruct (setAccessToken _) as [r st'|e st']; reflexivity.
Qed.

Lemma needs_refresh_no_token (st : State Session) :
  no_token (accessToken (sess st)) = true ->
  needs_refresh st = Return true st.
Proof.
  intros Hno. unfold needs_refresh. run. rewrite Hno. reflexivity.
Qed.

(** [setUserId] with a new userId that has length makes exactly one token
    exchange, whatever token was cached and without looking at the clock
    first; the exchange asks for the new userId. When it is granted,
    [setUserId] returns with the new userId and the granted token in the
    session; the old token is never kept. *)
Theorem setUserId_switches_identity (st : State Session) (newId : string) r w :
  newId <> "" ->
  newId <> userId (sess st) ->
  axios_token
    (mkRequest POST (_endpoint (sess st) ++ "/auth/token")
       (Some (JObj [("user_id", JStr newId)])) (_getAuthHeaderSecretKey (sess st)))
    (world st)
  = (Resolved r, w) ->
  exists st',
    setUserId newId st = Return tt st'
    /\ userId (sess st') = newId
    /\ accessToken (sess st') = Some (access_token (data r))
    /\ calls st'
       = (calls st
          ++ [TokenExchange
                (mkRequest POST (_endpoint (sess st) ++ "/auth/token")
                   (Some (JObj [("user_id", JStr newId)]))
                   (_getAuthHeaderSecretKey (sess st)))])%list.
Proof.
  intros Hlen Hnew Hcall. rewrite (setUserId_new_run st newId Hlen Hnew).
  set (st0 := mkState _ _ _).
  destruct (Date_now w) as [t w3] eqn:Hnow.
  destruct (Date_now w3) as [t' w4] eqn:Hnow'.
  rewrite (setAccessToken_resolved_run st0 st0 r w t w3 t' w4
             (needs_refresh_no_token st0 eq_refl) Hcall Hnow Hnow').
  eexists. split; [reflexivity|]. repeat split.
Qed.

(** When the exchange that [setUserId] makes is rejected, [setUserId]
    throws the transport's error, and the session is left with the new
    userId, no token, and the expiry of the token it dropped. *)
Theorem setUserId_rejected_exchange (st : State Session) (newId : string) m w :
  newId <> "" ->
  newId <> userId (sess st) ->
  axios_token
    (mkRequest POST (_endpoint (sess st) ++ "/auth/token")
       (Some (JObj [("user_id", JStr newId)])) (_getAuthHeaderSecretKey (sess st)))
    (world st)
  = (Rejected m, w) ->
  exists st',
    setUserId newId st = Throw (AxiosError m) st'
    /\ userId (sess st') = newId
    /\ accessToken (sess st') = None
    /\ accessTokenExpiry (sess st') = accessTokenExpiry (sess st)
    /\ token_exchanges (calls st') = S (token_exchanges (calls st)).
Proof.
  intros Hlen Hnew Hcall. rewrite (setUserId_new_run st newId Hlen Hnew).
  set (st0 := mkState _ _ _).
  rewrite (setAccessToken_rejected_run st0 st0 m w
             (needs_refresh_no_token st0 eq_refl) Hcall).
  eexists. split; [reflexivity|]. repeat split.
  cbn [calls]. apply token_exchanges_snoc.
Qed.

Lemma setUserId_returns_with_id (st st' : State Session) (newId : string) :
  setUserId newId st = Return tt st' -> userId (sess st') = newId.
Proof.
  unfold setUserId. run.
  destruct (String.eqb_spec newId (userId (sess st))) as [Heq|Hne].
  - intros H. injection H as <-. symmetry. exact Heq.
  - destruct (negb (Nat.eqb (String.length newId) 0)); [|discriminate].
    set (st0 := mkState _ _ _).
    pose proof (setAccessToken_unfold st0) as Hun.
    destruct (needs_refresh_run st0) as [w1 Hguard]. rewrite Hguard in Hun.
    replace (stale (sess st0) (fst (Date_now (world st0)))) with true in Hun
      by reflexivity.
    rewrite getAccessToken_run in Hun. cbn [sess world calls] in Hun.
    rewrite Hun.
    destruct (axios_token _ w1) as [[r|m] w2]; [|discriminate].
    cbn [sess world calls]. destruct (Date_now w2) as [t w3].
    destruct (Date_now w3) as [t' w4]. intros H. injection H as <-. reflexivity.
Qed.

(** Once [setUserId(newId)] has returned, [getUserId] answers [newId], and
    [getTimelineUser] and [deleteTimelineUser] called without a userId
    address that user: they run as if [newId] had been passed. *)
Theorem setUserId_then_defaults (st st' : State Session) (newId timelineId : string) :
  setUserId newId st = Return tt st' ->
  getUserId st' = Return newId st'
  /\ getTimelineUser timelineId None st' = getTimelineUser timelineId (Some newId) st'
  /\ deleteTimelineUser timelineId None st'
     = deleteTimelineUser timelineId (Some newId) st'.
Proof.
  intros Hset. pose proof (setUserId_returns_with_id _ _ _ Hset) as Hid.
  unfold getUserId, getTimelineUser, deleteTimelineUser. run. cbn [default].
  rewrite Hid. repeat split.
Qed.

(** *** The request the dispatcher sends *)

Lemma spread_common_lookup (h : gmap string string) (k : string) :
  spread _commonRequestHeaders h !! k
  = match h !! k with
    | Some v => Some v
    | None => _commonRequestHeaders !! k
    end.
Proof.
  unfold spread. rewrite lookup_union.
  destruct (h !! k), (_commonRequestHeaders !! k); reflexivity.
Qed.

Lemma common_headers_lookup :
  _commonRequestHeaders !! "Content-Type" = Some "application/json"
  /\ _commonRequestHeaders !! "Accept" = Some "application/json"
  /\ _commonRequestHeaders !! "Accept-Encoding" = Some "application/json"
  /\ _commonRequestHeaders !! "Authorization" = None
  /\ _commonRequestHeaders !! "Fictioneers-User-ID" = None.
Proof. repeat split. Qed.

(** What a returning header composition has produced. *)
Lemma auth_headers_inv auth (st st1 : State Session) h :
  auth_headers auth st = Return h st1 ->
  match auth with
  | key => st1 = st /\ h = <["Authorization" := apiKey (sess st)]> ∅
  | bearer =>
      if _isKeySecret (sess st)
      then st1 = st
           /\ h = <["Fictioneers-User-ID" := userId (sess st)]>
                    (<["Authorization" := apiKey (sess st)]> ∅)
      else st1 = final (setAccessToken st)
           /\ exists token,
               accessToken (sess st1) = Some token /\ token <> ""
               /\ h = <["Authorization" := "Bearer " ++ token]> ∅
  end.
Proof.
  destruct auth; cbn [auth_headers].
  - destruct (_isKeySecret (sess st)) eqn:Hkey.
    + unfold _getAuthHeadersAudienceEndpoints. run. rewrite Hkey.
      intros H. injection H as <- <-. split; reflexivity.
    + rewrite (public_key_bearer_run st Hkey).
      destruct (setAccessToken st) as [r st2|e st2]; [|discriminate].
      destruct (accessToken (sess st2)) as [token|] eqn:Htok; [|discriminate].
      cbn [no_token default].
      destruct (String.eqb_spec token "") as [->|Hne]; [discriminate|].
      intros H. injection H as <- <-. split; [reflexivity|].
      exists token. rewrite Htok. repeat split. exact Hne.
  - run. intros H. injection H as <- <-. split; reflexivity.
Qed.

(** What a returning [_doFetch] has done. *)
Lemma _doFetch_return_inv url method auth body deprecated (st st' : State Session) v :
  _doFetch url method auth body deprecated st = Return v st' ->
  exists h st1 response w,
    auth_headers auth st = Return h st1
    /\ axios (dispatch_request (sess st1) url method body
                (spread _commonRequestHeaders h)) (world st1)
       = (Resolved response, w)
    /\ shape_response method deprecated response = inr v
    /\ st' = mkState (sess st1) w
               (calls st1
                ++ [EndpointCall
                      (dispatch_request (sess st1) url method body
                         (spread _commonRequestHeaders h))]).
Proof.
  rewrite _doFetch_unfold.
  destruct (auth_headers auth st) as [h st1|e st1]; [|discriminate].
  unfold await_call.
  destruct (axios _ (world st1)) as [[response|m] w] eqn:Hcall; [|discriminate].
  destruct (shape_response method deprecated response) as [e|x] eqn:Hshape;
    [discriminate|].
  cbn [lift]. unfold pure. intros H. injection H as <- <-.
  exists h, st1, response, w. repeat split; assumption.
Qed.

Lemma key_mode_final (st : State Session) url method body deprecated :
  final (_doFetch url method key body deprecated st)
  = mkState (sess st)
      (snd (axios (dispatch_request (sess st) url method body
                     (spread _commonRequestHeaders (_getAuthHeaderSecretKey (sess st))))
              (world st)))
      (calls st
       ++ [EndpointCall
             (dispatch_request (sess st) url method body
                (spread _commonRequestHeaders (_getAuthHeaderSecretKey (sess st))))]).
Proof.
  rewrite _doFetch_unfold. cbn [auth_headers]. run. unfold await_call.
  cbn [sess world calls].
  destruct (axios _ (world st)) as [[response|m] w]; [|reflexivity].
  destruct (shape_response method deprecated response); reflexivity.
Qed.

Lemma key_mode_authorization (s : Session) :
  spread _commonRequestHeaders (_getAuthHeaderSecretKey s) !! "Authorization"
  = Some (apiKey s).
Proof.
  rewrite spread_common_lookup. unfold _getAuthHeaderSecretKey.
  rewrite lookup_insert_eq. reflexivity.
Qed.

(** A key-mode call of the dispatcher, however it ends, leaves the session
    as it was and adds exactly one call to the trace: the request for the
    given verb and path, carrying the raw API key as [Authorization], the
    three JSON headers, and no [Fictioneers-User-ID]. No token is
    exchanged, even with a public key. *)
Theorem key_mode_call (st : State Session) url method body deprecated :
  exists r,
    sess (final (_doFetch url method key body deprecated st)) = sess st
    /\ calls (final (_doFetch url method key body deprecated st))
       = (calls st ++ [EndpointCall r])%list
    /\ req_method r = method
    /\ req_url r = _endpoint (sess st) ++ url
    /\ req_headers r !! "Authorization" = Some (apiKey (sess st))
    /\ req_headers r !! "Content-Type" = Some "application/json"
    /\ req_headers r !! "Accept" = Some "application/json"
    /\ req_headers r !! "Accept-Encoding" = Some "application/json"
    /\ req_headers r !! "Fictioneers-User-ID" = None.
Proof.
  exists (dispatch_request (sess st) url method body
            (spread _commonRequestHeaders (_getAuthHeaderSecretKey (sess st)))).
  rewrite key_mode_final. cbn [sess calls dispatch_request req_method req_url req_headers].
  split; [reflexivity|]. split; [reflexivity|]. split; [reflexivity|].
  split; [reflexivity|]. split; [apply key_mode_authorization|].
  rewrite !spread_common_lookup. unfold _getAuthHeaderSecretKey.
  rewrite !lookup_insert_ne, !lookup_empty by discriminate.
  repeat split.
Qed.

(** The administrative methods and their routes: each of them, however it
    ends, leaves the session as it was and adds to the trace exactly one
    request, with the verb and path listed here and the raw API key as
    [Authorization]. [getTimelineUser] and [deleteTimelineUser] address the
    userId they are given, and the session's own when given none. *)
Theorem admin_methods_use_raw_key (st : State Session) timelineId userId0 :
  Forall
    (fun '(call, verb, path) =>
       exists r,
         sess (final (call st)) = sess st
         /\ calls (final (call st)) = (calls st ++ [EndpointCall r])%list
         /\ req_method r = verb
         /\ req_url r = _endpoint (sess st) ++ path
         /\ req_body r = None
         /\ req_headers r !! "Authorization" = Some (apiKey (sess st)))
    [(getTimelines, GET, "/timelines");
     (getTimeline timelineId, GET, "/timelines/" ++ timelineId);
     (getTimelineEvents timelineId, GET,
      "/timelines/" ++ timelineId ++ "/timeline-events");
     (getTimelineUsers timelineId, GET, "/timelines/" ++ timelineId ++ "/users");
     (deleteTimelineUsers timelineId, DELETE, "/timelines/" ++ timelineId ++ "/users");
     (getTimelineUser timelineId userId0, GET,
      "/timelines/" ++ timelineId ++ "/users/" ++ default (userId (sess st)) userId0);
     (deleteTimelineUser timelineId userId0, DELETE,
      "/timelines/" ++ timelineId ++ "/users/" ++ default (userId (sess st)) userId0);
     (getTimelineEventStateChanges timelineId, GET,
      "/timelines/" ++ timelineId ++ "/event-state-changes/")].
Proof.
  repeat match goal with
         | |- Forall _ (_ :: _) => constructor
         | |- Forall _ [] => constructor
         end;
    unfold getTimelines, getTimeline, getTimelineEvents, getTimelineUsers,
      deleteTimelineUsers, getTimelineUser, deleteTimelineUser,
      getTimelineEventStateChanges; run;
    rewrite key_mode_final; eexists;
    cbn [sess calls dispatch_request req_method req_url req_body req_headers];
    (split; [reflexivity|]); (split; [reflexivity|]); (split; [reflexivity|]);
    (split; [reflexivity|]); (split; [reflexivity|]); apply key_mode_authorization.
Qed.

(** The request of a bearer-mode call that returns: the given verb and
    path, the three JSON headers, and as credentials either the raw key
    with the session's userId in [Fictioneers-User-ID] (secret key), or
    [Bearer] followed by the non-empty token that the session holds
    afterwards, with no [Fictioneers-User-ID] header (public key). *)
Theorem bearer_mode_request (st st' : State Session) url method body deprecated v :
  _doFetch url method bearer body deprecated st = Return v st' ->
  exists prior r,
    calls st' = (prior ++ [EndpointCall r])%list
    /\ req_method r = method
    /\ req_url r = _endpoint (sess st) ++ url
    /\ req_headers r !! "Content-Type" = Some "application/json"
    /\ req_headers r !! "Accept" = Some "application/json"
    /\ req_headers r !! "Accept-Encoding" = Some "application/json"
    /\ if _isKeySecret (sess st)
       then req_headers r !! "Authorization" = Some (apiKey (sess st))
            /\ req_headers r !! "Fictioneers-User-ID" = Some (userId (sess st))
       else exists token,
              accessToken (sess st') = Some token /\ token <> ""
              /\ req_headers r !! "Authorization" = Some ("Bearer " ++ token)
              /\ req_headers r !! "Fictioneers-User-ID" = None.
Proof.
  intros Hrun.
  destruct (_doFetch_return_inv _ _ _ _ _ _ _ _ Hrun)
    as [h [st1 [response [w [Hauth [_ [_ ->]]]]]]].
  pose proof (proj2 (auth_headers_trace bearer st)) as Hendpoint.
  rewrite Hauth in Hendpoint. cbn [final] in Hendpoint.
  apply auth_headers_inv in Hauth.
  exists (calls st1), (dispatch_request (sess st1) url method body
                         (spread _commonRequestHeaders h)).
  cbn [calls sess dispatch_request req_method req_url req_headers].
  split; [reflexivity|]. split; [reflexivity|].
  split; [rewrite Hendpoint; reflexivity|].
  rewrite !spread_common_lookup.
  destruct (_isKeySecret (sess st)).
  - destruct Hauth as [-> ->].
    repeat (rewrite lookup_insert_eq || rewrite lookup_insert_ne by discriminate
            || rewrite lookup_empty).
    repeat split.
  - destruct Hauth as [_ [token [Htok [Hne ->]]]].
    repeat (rewrite lookup_insert_eq || rewrite lookup_insert_ne by discriminate
            || rewrite lookup_empty).
    repeat split. exists token. repeat split; assumption.
Qed.

(** The audience methods and their requests: whenever one of them
    returns it has sent exactly one endpoint request, with the verb, path
    and body listed here. [createUser] always sends the timezone
    [Europe/London] next to the timeline and the flags it was given, and
    [followLinkUserTimelineEvent] sends the link under [link_id]. *)
Theorem audience_methods_requests (st : State Session) timelineId disableTimeGuards
    pauseAtBeats maxSteps timelineEventId linkId :
  Forall
    (fun '(call, verb, path, sent) =>
       forall v st',
         call st = Return v st' ->
         exists headers,
           endpoint_calls (calls st')
           = (endpoint_calls (calls st)
              ++ [mkRequest verb (_endpoint (sess st) ++ path) sent headers])%list)
    [(getUser, GET, "/users/me", None);
     (deleteUser, DELETE, "/users/me", None);
     (createUser timelineId disableTimeGuards pauseAtBeats maxSteps, POST, "/users",
      Some (JObj [("published_timeline_id", JStr timelineId);
                  ("timezone", JStr "Europe/London");
                  ("disable_time_guards", JBool disableTimeGuards);
                  ("pause_at_beats", JBool pauseAtBeats);
                  ("max_steps", match maxSteps with Some n => JNum n | None => JNull end)]));
     (getUserTimelineEvents, GET, "/user-timeline-events", None);
     (followLinkUserTimelineEvent timelineEventId linkId, POST,
      "/user-timeline-events/" ++ timelineEventId ++ "/follow-link",
      Some (JObj [("link_id", JStr linkId)]))].
Proof.
  repeat match goal with
         | |- Forall _ (_ :: _) => constructor
         | |- Forall _ [] => constructor
         end;
    unfold getUser, deleteUser, createUser, getUserTimelineEvents,
      followLinkUserTimelineEvent;
    intros v st' Hrun;
    destruct (_doFetch_trace _ _ _ _ _ _ _ _ Hrun) as [headers [Hcalls _]];
    exists headers; exact Hcalls.
Qed.

(** *** What the dispatcher and the workflow leave alone *)

Lemma token_exchanges_endpoint_snoc (cs : list Call) (r : Request) :
  token_exchanges (cs ++ [EndpointCall r]) = token_exchanges cs.
Proof.
  unfold token_exchanges. rewrite List.filter_app, List.length_app. cbn. lia.
Qed.

(** A property of the session and of the number of exchanges that the
    header composition keeps is kept by the whole dispatched call. *)
Lemma tracks_doFetch (J : Session -> nat -> Prop) auth :
  (forall st, tracks J st -> tracks J (final (auth_headers auth st))) ->
  forall url method body deprecated st,
    tracks J st -> tracks J (final (_doFetch url method auth body deprecated st)).
Proof.
  intros Hauth url method body deprecated st Hst. specialize (Hauth st Hst).
  rewrite _doFetch_unfold.
  destruct (auth_headers auth st) as [h st1|e st1]; cbn [final] in *; [|exact Hauth].
  unfold await_call.
  assert (Hafter : forall w r,
             tracks J (mkState (sess st1) w (calls st1 ++ [EndpointCall r]))).
  { intros w r. unfold tracks in *. cbn [sess calls].
    rewrite token_exchanges_endpoint_snoc. exact Hauth. }
  destruct (axios _ (world st1)) as [[response|m] w]; [|apply Hafter].
  destruct (shape_response method deprecated response); apply Hafter.
Qed.

Lemma tracks_bind (J : Session -> nat -> Prop) {A B}
    (m : Async Session A) (k : A -> Async Session B) :
  (forall st, tracks J st -> tracks J (final (m st))) ->
  (forall a st, tracks J st -> tracks J (final (k a st))) ->
  forall st, tracks J st -> tracks J (final ((m ≫= k) st)).
Proof.
  intros Hm Hk st Hst. specialize (Hm st Hst). run.
  destruct (m st) as [a st1|e st1]; cbn [final] in *; [apply Hk|]; exact Hm.
Qed.

Lemma tracks_lift (J : Session -> nat -> Prop) {A} (r : JsError + A) st :
  tracks J st -> tracks J (final (lift r st)).
Proof. destruct r; intros H; exact H. Qed.

Lemma tracks_initialise (J : Session -> nat -> Prop) :
  (forall st, tracks J st -> tracks J (final (auth_headers bearer st))) ->
  forall timelineId disableTimeGuards pauseAtBeats maxSteps st,
    tracks J st ->
    tracks J (final (initialiseAndProgressUser timelineId disableTimeGuards
                       pauseAtBeats maxSteps st)).
Proof.
  intros Hauth timelineId disableTimeGuards pauseAtBeats maxSteps.
  pose proof (tracks_doFetch J bearer Hauth) as Hfetch.
  unfold initialiseAndProgressUser, getUser, createUser, getUserTimelineEvents.
  apply tracks_bind; [apply Hfetch|]. intros getUserResponse.
  apply tracks_bind; [intros st; apply tracks_lift|]. intros existing.
  apply tracks_bind.
  - destruct (loosely_null existing).
    + apply tracks_bind; [apply Hfetch|]. intros r st. apply tracks_lift.
    + intros st Hst. exact Hst.
  - intros user. apply tracks_bind; [apply Hfetch|]. intros r.
    apply tracks_bind; [intros st; apply tracks_lift|].
    intros eventsData st Hst. exact Hst.
Qed.

Lemma setAccessToken_session_cases (st : State Session) :
  (sess (final (setAccessToken st)) = sess st
   /\ calls (final (setAccessToken st)) = calls st)
  \/ calls (final (setAccessToken st))
     = (calls st ++ [TokenExchange (token_request (sess st))])%list
     /\ (sess (final (setAccessToken st)) = sess st
         \/ exists token expiry,
             sess (final (setAccessToken st))
             = with_accessTokenExpiry (Some expiry)
                 (with_accessToken (Some token) (sess st))).
Proof.
  rewrite setAccessToken_unfold.
  destruct (needs_refresh_run st) as [w1 ->].
  destruct (stale (sess st) (fst (Date_now (world st)))).
  - right. rewrite getAccessToken_run. cbn [sess world calls].
    destruct (axios_token (token_request (sess st)) w1) as [[r|m] w2].
    + cbn [sess world calls]. destruct (Date_now w2) as [t w3].
      destruct (Date_now w3) as [t' w4]. cbn [final sess calls].
      split; [reflexivity|]. right. eexists. eexists. reflexivity.
    + cbn [final sess calls]. split; [reflexivity|]. left. reflexivity.
  - left. cbn [sess world calls]. destruct (Date_now w1) as [t' w4].
    split; reflexivity.
Qed.

(** *** Consistency of the token cache *)

Lemma setAccessToken_consistent (st : State Session) :
  cache_consistent (sess st) -> cache_consistent (sess (final (setAccessToken st))).
Proof.
  intros Hst. rewrite setAccessToken_unfold.
  destruct (needs_refresh_run st) as [w1 ->].
  destruct (stale (sess st) (fst (Date_now (world st)))).
  - rewrite getAccessToken_run. cbn [sess world calls].
    destruct (axios_token (token_request (sess st)) w1) as [[r|m] w2] eqn:Hcall.
    + cbn [sess world calls]. destruct (Date_now w2) as [t w3] eqn:Hnow.
      destruct (Date_now w3) as [t' w4]. cbn [final sess].
      right. exists w1, r, w2, t, w3. repeat split; assumption.
    + exact Hst.
  - cbn [sess world calls]. destruct (Date_now w1) as [t' w4]. exact Hst.
Qed.

Lemma auth_headers_consistent auth (st : State Session) :
  cache_consistent (sess st) -> cache_consistent (sess (final (auth_headers auth st))).
Proof.
  intros Hst. destruct auth; cbn [auth_headers]; [|exact Hst].
  destruct (_isKeySecret (sess st)) eqn:Hkey.
  - unfold _getAuthHeadersAudienceEndpoints. run. rewrite Hkey. exact Hst.
  - rewrite (public_key_bearer_final st Hkey). apply setAccessToken_consistent, Hst.
Qed.

Lemma cache_consistent_paired (s : Session) :
  cache_consistent s -> cache_paired s = true.
Proof.
  unfold cache_paired.
  intros [[-> ->]|[w [r [w2 [t [w3 [_ [_ [-> ->]]]]]]]]]; reflexivity.
Qed.

(** C9, as the code has it, for a token endpoint whose payload is the
    [TokenResponse] the source declares ([access_token] a string,
    [expires_in] a number). A new session has neither token nor expiry.
    From a session whose token and expiry are both absent, or both present
    and those of one grant of this session's token request,
    [setAccessToken], every dispatched endpoint call and
    [initialiseAndProgressUser] end in such a session again, whether they
    return or throw, and so does a [setUserId] that returns. The exception
    is [getAccessToken], which is public too: it stores the new token and
    leaves the expiry as it was. *)
Theorem token_cache_consistency (st : State Session) :
  (forall apiKey0 userId0 apiVersion w,
      accessToken (fst (constructor apiKey0 userId0 apiVersion w)) = None
      /\ accessTokenExpiry (fst (constructor apiKey0 userId0 apiVersion w)) = None)
  /\ (cache_consistent (sess st) ->
      cache_consistent (sess (final (setAccessToken st)))
      /\ (forall url method auth body deprecated,
            cache_consistent (sess (final (_doFetch url method auth body deprecated st))))
      /\ (forall timelineId disableTimeGuards pauseAtBeats maxSteps,
            cache_consistent
              (sess (final (initialiseAndProgressUser timelineId disableTimeGuards
                              pauseAtBeats maxSteps st)))))
  /\ (forall newId,
        cache_consistent (sess st) ->
        thrown (setUserId newId st) = None ->
        cache_consistent (sess (final (setUserId newId st))))
  /\ (forall s, cache_consistent s -> cache_paired s = true)
  /\ (forall grant st',
        getAccessToken st = Return grant st' ->
        accessToken (sess st') = Some (access_token grant)
        /\ accessTokenExpiry (sess st') = accessTokenExpiry (sess st)).
Proof.
  set (J := fun (s : Session) (n : nat) => cache_consistent s).
  assert (Hauth : forall auth st0,
             tracks J st0 -> tracks J (final (auth_headers auth st0))).
  { intros auth st0. apply auth_headers_consistent. }
  split; [|split; [|split; [|split]]].
  - intros apiKey0 userId0 apiVersion w.
    unfold constructor. destruct userId0; [split; reflexivity|].
    destruct (uuidv4 w). split; reflexivity.
  - intros Hst. split; [apply setAccessToken_consistent, Hst|]. split.
    + intros url method auth body deprecated.
      exact (tracks_doFetch J auth (Hauth auth) url method body deprecated st Hst).
    + intros timelineId disableTimeGuards pauseAtBeats maxSteps.
      exact (tracks_initialise J (Hauth bearer) timelineId disableTimeGuards
               pauseAtBeats maxSteps st Hst).
  - intros newId Hst. unfold setUserId. run.
    destruct (String.eqb newId (userId (sess st))); [intros _; exact Hst|].
    destruct (negb (Nat.eqb (String.length newId) 0)); [|discriminate].
    set (st0 := mkState _ _ _).
    rewrite (setAccessToken_unfold st0).
    destruct (needs_refresh_run st0) as [w1 ->].
    replace (stale (sess st0) (fst (Date_now (world st0)))) with true by reflexivity.
    rewrite getAccessToken_run. cbn [sess world calls].
    destruct (axios_token (token_request (sess st0)) w1) as [[r|m] w2] eqn:Hcall;
      [|discriminate].
    cbn [sess world calls]. destruct (Date_now w2) as [t w3] eqn:Hnow.
    destruct (Date_now w3) as [t' w4]. intros _. cbn [final sess].
    right. exists w1, r, w2, t, w3. repeat split; assumption.
  - apply cache_consistent_paired.
  - intros grant st' Hgrant. rewrite getAccessToken_run in Hgrant.
    destruct (axios_token _ _) as [[r|m] w2]; [|discriminate].
    injection Hgrant as <- <-. split; reflexivity.
Qed.

(** With a secret key nothing the dispatcher or the workflow does touches
    the session or exchanges a token: after [_doFetch] in either mode, and
    after [initialiseAndProgressUser], however they end, the session is the
    one they started with and the number of token exchanges is unchanged. *)
Theorem secret_key_session_is_static (st : State Session) :
  String.prefix SECRET_API_KEY_PREFIX (apiKey (sess st)) = true ->
  (forall url method auth body deprecated,
      sess (final (_doFetch url method auth body deprecated st)) = sess st
      /\ token_exchanges (calls (final (_doFetch url method auth body deprecated st)))
         = token_exchanges (calls st))
  /\ (forall timelineId disableTimeGuards pauseAtBeats maxSteps,
        sess (final (initialiseAndProgressUser timelineId disableTimeGuards
                       pauseAtBeats maxSteps st)) = sess st
        /\ token_exchanges
             (calls (final (initialiseAndProgressUser timelineId disableTimeGuards
                              pauseAtBeats maxSteps st)))
           = token_exchanges (calls st)).
Proof.
  intros Hsecret. rewrite <- _isKeySecret_spec in Hsecret.
  set (J := fun (s : Session) (n : nat) =>
              s = sess st /\ n = token_exchanges (calls st)).
  assert (Hauth : forall auth st0,
             tracks J st0 -> tracks J (final (auth_headers auth st0))).
  { intros auth st0 [Hs Hn]. destruct auth; cbn [auth_headers].
    - unfold _getAuthHeadersAudienceEndpoints. run. rewrite Hs, Hsecret.
      split; assumption.
    - split; assumption. }
  assert (Hst : tracks J st) by (split; reflexivity).
  split.
  - intros url method auth body deprecated.
    exact (tracks_doFetch J auth (Hauth auth) url method body deprecated st Hst).
  - intros timelineId disableTimeGuards pauseAtBeats maxSteps.
    exact (tracks_initialise J (Hauth bearer) timelineId disableTimeGuards
             pauseAtBeats maxSteps st Hst).
Qed.

(** The API key, the base address and the userId are never changed by
    [setAccessToken], by a dispatched call or by the workflow, however they
    end; [setUserId] changes neither key nor base address, and leaves as
    userId either the old one or the one it was given. *)
Theorem identity_fields_kept (st : State Session) :
  let same (s : Session) :=
    apiKey s = apiKey (sess st) /\ _endpoint s = _endpoint (sess st)
    /\ userId s = userId (sess st) in
  same (sess (final (setAccessToken st)))
  /\ (forall url method auth body deprecated,
        same (sess (final (_doFetch url method auth body deprecated st))))
  /\ (forall timelineId disableTimeGuards pauseAtBeats maxSteps,
        same (sess (final (initialiseAndProgressUser timelineId disableTimeGuards
                             pauseAtBeats maxSteps st))))
  /\ (forall newId,
        apiKey (sess (final (setUserId newId st))) = apiKey (sess st)
        /\ _endpoint (sess (final (setUserId newId st))) = _endpoint (sess st)
        /\ (userId (sess (final (setUserId newId st))) = userId (sess st)
            \/ userId (sess (final (setUserId newId st))) = newId)).
Proof.
  cbv zeta.
  set (J := fun (s : Session) (n : nat) =>
              apiKey s = apiKey (sess st) /\ _endpoint s = _endpoint (sess st)
              /\ userId s = userId (sess st)).
  assert (Hset : forall st0, tracks J st0 -> tracks J (final (setAccessToken st0))).
  { intros st0 Hst0. unfold tracks, J in *.
    destruct (setAccessToken_session_cases st0)
      as [[-> _]|[_ [->|[token [expiry ->]]]]]; exact Hst0. }
  assert (Hauth : forall auth st0,
             tracks J st0 -> tracks J (final (auth_headers auth st0))).
  { intros auth st0 Hst0. destruct auth; cbn [auth_headers]; [|exact Hst0].
    destruct (_isKeySecret (sess st0)) eqn:Hkey.
    - unfold _getAuthHeadersAudienceEndpoints. run. rewrite Hkey. exact Hst0.
    - rewrite (public_key_bearer_final st0 Hkey). apply Hset, Hst0. }
  assert (Hst : tracks J st) by (repeat split).
  split; [exact (Hset st Hst)|]. split; [|split].
  - intros url method auth body deprecated.
    exact (tracks_doFetch J auth (Hauth auth) url method body deprecated st Hst).
  - intros timelineId disableTimeGuards pauseAtBeats maxSteps.
    exact (tracks_initialise J (Hauth bearer) timelineId disableTimeGuards
             pauseAtBeats maxSteps st Hst).
  - intros newId. unfold setUserId. run.
    destruct (String.eqb newId (userId (sess st))).
    + cbn [final]. repeat split. left. reflexivity.
    + destruct (negb (Nat.eqb (String.length newId) 0)).
      * set (st0 := mkState _ _ _).
        assert (Hfinal : sess (final (match setAccessToken st0 with
                                      | Return _ st' => Return tt st'
                                      | Throw e st' => Throw e st'
                                      end)) = sess (final (setAccessToken st0))).
        { destruct (setAccessToken st0); reflexivity. }
        rewrite Hfinal.
        destruct (setAccessToken_session_cases st0)
          as [[-> _]|[_ [->|[token [expiry ->]]]]];
          repeat split; right; reflexivity.
      * cbn [final]. repeat split. left. reflexivity.
Qed.
(** *** What the dispatcher returns *)

(** A DELETE that axios resolves returns the fabricated envelope whatever
    the status, the response body, the request body and the deprecated
    flag: [status] is 204 even for a failed deletion, and [error] is the
    status text exactly when the status is 400 or more; any status below
    400 (a redirect, say) counts as success. *)
Theorem delete_envelope_any_status url auth body deprecated
    (st st1 : State Session) authHeaders response w :
  auth_headers auth st = Return authHeaders st1 ->
  axios (dispatch_request (sess st1) url DELETE body
           (spread _commonRequestHeaders authHeaders)) (world st1)
  = (Resolved response, w) ->
  exists error,
    returned (_doFetch url DELETE auth body deprecated st)
    = Some (JObj [("data", JNull); ("error", error); ("meta", JNull);
                  ("status", JNum 204)])
    /\ (status response < 400 -> error = JNull)
    /\ (400 <= status response -> error = JStr (statusText response)).
Proof.
  intros Hheaders Hcall.
  rewrite (_doFetch_resolved _ _ _ _ _ _ _ _ _ _ Hheaders Hcall).
  cbn [shape_response lift]. unfold pure, delete_envelope. cbn [returned].
  eexists. split; [reflexivity|]. split; intros Hstatus.
  - replace (400 <=? status response) with false; [reflexivity|].
    symmetry. apply Z.leb_gt. exact Hstatus.
  - replace (400 <=? status response) with true; [reflexivity|].
    symmetry. apply Z.leb_le. exact Hstatus.
Qed.

(** A GET, POST or PATCH without the deprecated flag returns the response
    body exactly as axios resolved it, whatever the status of the
    response: the dispatcher checks no status itself. *)
Theorem plain_call_returns_body url method auth body
    (st st1 : State Session) authHeaders response w :
  method <> DELETE ->
  auth_headers auth st = Return authHeaders st1 ->
  axios (dispatch_request (sess st1) url method body
           (spread _commonRequestHeaders authHeaders)) (world st1)
  = (Resolved response, w) ->
  _doFetch url method auth body false st
  = Return (data response)
      (mkState (sess st1) w
         (calls st1
          ++ [EndpointCall
                (dispatch_request (sess st1) url method body
                   (spread _commonRequestHeaders authHeaders))])).
Proof.
  intros Hmethod Hheaders Hcall.
  rewrite (_doFetch_resolved _ _ _ _ _ _ _ _ _ _ Hheaders Hcall).
  destruct method; try reflexivity. congruence.
Qed.

(** A request that axios rejects: the dispatcher throws the transport's
    error for every verb (no envelope is fabricated for a DELETE), with the
    one request in the trace and the session as the header composition
    left it. *)
Theorem rejected_request_surfaces url method auth body deprecated
    (st st1 : State Session) authHeaders m w :
  auth_headers auth st = Return authHeaders st1 ->
  axios (dispatch_request (sess st1) url method body
           (spread _commonRequestHeaders authHeaders)) (world st1)
  = (Rejected m, w) ->
  _doFetch url method auth body deprecated st
  = Throw (AxiosError m)
      (mkState (sess st1) w
         (calls st1
          ++ [EndpointCall
                (dispatch_request (sess st1) url method body
                   (spread _commonRequestHeaders authHeaders))])).
Proof.
  intros Hheaders Hcall. rewrite _doFetch_unfold, Hheaders.
  unfold await_call. rewrite Hcall. reflexivity.
Qed.

(** *** The workflow *)

(** Whenever [initialiseAndProgressUser] returns, [getUser] has returned a
    body with some [data], and one of two things happened. Either that
    [data] was neither [null] nor [undefined]: then the endpoint calls made
    are GET /users/me and GET /user-timeline-events and nothing else, and
    the [user] of the result is [undefined]. Or it was [null] or
    [undefined]: then [createUser] ran next, with the given timeline and
    flags, and returned; the endpoint calls made are GET /users/me, POST
    /users with that body, GET /user-timeline-events, and the [user] of the
    result is the [data] of the [createUser] response. *)
Theorem initialise_call_sequence timelineId disableTimeGuards pauseAtBeats maxSteps
    (st st' : State Session) result :
  initialiseAndProgressUser timelineId disableTimeGuards pauseAtBeats maxSteps st
  = Return result st' ->
  exists fetched st1 existing h1 h3 events,
    getUser st = Return fetched st1
    /\ js_get fetched "data" = inr existing
    /\ ((loosely_null existing = false
         /\ result = JObj [("user", JUndefined); ("userTimelineEvents", events)]
         /\ endpoint_calls (calls st')
            = (endpoint_calls (calls st)
               ++ [mkRequest GET (_endpoint (sess st) ++ "/users/me") None h1;
                   mkRequest GET (_endpoint (sess st) ++ "/user-timeline-events")
                     None h3])%list)
        \/ (loosely_null existing = true
            /\ exists created st2 user h2,
                createUser timelineId disableTimeGuards pauseAtBeats maxSteps st1
                = Return created st2
                /\ js_get created "data" = inr user
                /\ result = JObj [("user", user); ("userTimelineEvents", events)]
                /\ endpoint_calls (calls st')
                   = (endpoint_calls (calls st)
                      ++ [mkRequest GET (_endpoint (sess st) ++ "/users/me") None h1;
                          mkRequest POST (_endpoint (sess st) ++ "/users")
                            (Some (createUser_body timelineId disableTimeGuards
                                     pauseAtBeats maxSteps)) h2;
                          mkRequest GET
                            (_endpoint (sess st) ++ "/user-timeline-events")
                            None h3])%list)).
Proof.
  unfold initialiseAndProgressUser. run. intros Hrun.
  destruct (getUser st) as [r1 st1|e st1] eqn:Hget; [|discriminate].
  destruct (js_get r1 "data") as [e|d] eqn:Hd; [discriminate|].
  pose proof Hget as Hget'. unfold getUser in Hget'.
  destruct (_doFetch_trace _ _ _ _ _ _ _ _ Hget') as [h1 [H1 E1]].
  destruct (loosely_null d) eqn:Hnull.
  - destruct (createUser timelineId disableTimeGuards pauseAtBeats maxSteps st1)
      as [r2 st2|e st2] eqn:Hcreate; [|discriminate].
    destruct (js_get r2 "data") as [e|u] eqn:Hu; [discriminate|].
    destruct (getUserTimelineEvents st2) as [r3 st3|e st3] eqn:Hevents; [|discriminate].
    destruct (js_get r3 "data") as [e|ev]; [discriminate|].
    injection Hrun as <- <-.
    pose proof Hcreate as Hcreate'. unfold createUser in Hcreate'.
    unfold getUserTimelineEvents in Hevents.
    destruct (_doFetch_trace _ _ _ _ _ _ _ _ Hcreate') as [h2 [H2 E2]].
    destruct (_doFetch_trace _ _ _ _ _ _ _ _ Hevents) as [h3 [H3 E3]].
    exists r1, st1, d, h1, h3, (js_or ev (JArr [])).
    split; [reflexivity|]. split; [exact Hd|]. right. split; [exact Hnull|].
    exists r2, st2, u, h2. split; [exact Hcreate|]. split; [exact Hu|].
    split; [reflexivity|].
    rewrite H3, H2, H1. unfold dispatch_request.
    rewrite E2, E1. rewrite <- !List.app_assoc. reflexivity.
  - destruct (getUserTimelineEvents st1) as [r3 st3|e st3] eqn:Hevents; [|discriminate].
    destruct (js_get r3 "data") as [e|ev]; [discriminate|].
    injection Hrun as <- <-.
    unfold getUserTimelineEvents in Hevents.
    destruct (_doFetch_trace _ _ _ _ _ _ _ _ Hevents) as [h3 [H3 E3]].
    exists r1, st1, d, h1, h3, (js_or ev (JArr [])).
    split; [reflexivity|]. split; [exact Hd|]. left. split; [exact Hnull|].
    split; [reflexivity|].
    rewrite H3, H1. unfold dispatch_request.
    rewrite E1. rewrite <- !List.app_assoc. reflexivity.
Qed.

(** Nothing in the workflow catches an error. When fetching the user
    throws, or its response body is [null], the workflow throws that error
    at once; when the user is missing and creating it throws, the workflow
    throws that error in the state [createUser] left, so the timeline
    events are never fetched. *)
Theorem initialise_stops_at_first_failure timelineId disableTimeGuards pauseAtBeats
    maxSteps (st st1 : State Session) :
  (forall e,
      getUser st = Throw e st1 ->
      initialiseAndProgressUser timelineId disableTimeGuards pauseAtBeats maxSteps st
      = Throw e st1)
  /\ (getUser st = Return JNull st1 ->
      exists message,
        initialiseAndProgressUser timelineId disableTimeGuards pauseAtBeats maxSteps st
        = Throw (TypeError message) st1)
  /\ (forall r1 d e st2,
        getUser st = Return r1 st1 ->
        js_get r1 "data" = inr d ->
        loosely_null d = true ->
        createUser timelineId disableTimeGuards pauseAtBeats maxSteps st1 = Throw e st2 ->
        initialiseAndProgressUser timelineId disableTimeGuards pauseAtBeats maxSteps st
        = Throw e st2).
Proof.
  unfold initialiseAndProgressUser. run. split; [|split].
  - intros e ->. reflexivity.
  - intros ->. eexists. reflexivity.
  - intros r1 d e st2 -> Hd Hnull Hcreate. cbn beta iota.
    rewrite Hd; cbn beta iota. rewrite Hnull, Hcreate. reflexivity.
Qed.

(** *** The first bearer call of a new session *)

Lemma tokenless_first_call (st : State Session) url method body deprecated :
  _isKeySecret (sess st) = false ->
  accessToken (sess st) = None ->
  exists rest,
    calls (final (_doFetch url method bearer body deprecated st))
    = (calls st ++ TokenExchange (token_request (sess st)) :: rest)%list
    /\ token_exchanges rest = 0%nat.
Proof.
  intros Hkey Hnone.
  assert (Hset : calls (final (setAccessToken st))
                 = (calls st ++ [TokenExchange (token_request (sess st))])%list).
  { rewrite setAccessToken_calls. unfold stale. rewrite Hnone. reflexivity. }
  rewrite _doFetch_unfold. cbn [auth_headers].
  pose proof (public_key_bearer_final st Hkey) as Hfinal.
  destruct (_getAuthHeadersAudienceEndpoints st) as [h st1|e st1];
    cbn [final] in Hfinal.
  - unfold await_call.
    assert (Hcalls : calls st1
                     = (calls st ++ [TokenExchange (token_request (sess st))])%list)
      by (rewrite Hfinal; exact Hset).
    exists [EndpointCall (dispatch_request (sess st1) url method body
                            (spread _commonRequestHeaders h))].
    split; [|reflexivity].
    destruct (axios _ (world st1)) as [[response|m] w'];
      [destruct (shape_response method deprecated response)|];
      cbn [lift final calls]; unfold pure, throw; cbn [final calls];
      rewrite Hcalls, <- List.app_assoc; reflexivity.
  - exists []. split; [|reflexivity]. cbn [final]. rewrite Hfinal. exact Hset.
Qed.

(** A session just built by the constructor with a public key holds no
    token, so its first bearer call begins, whatever the clock shows, with
    one token exchange: a POST to [/auth/token] under the versioned base
    address (version 1 unless another is given), with the raw key as
    [Authorization] and the session's userId, the one given to the
    constructor if any, as [user_id]. Whatever the call adds after that is
    no exchange. *)
Theorem new_session_first_bearer_call apiKey0 userId0 apiVersion (w0 w : World)
    (cs : list Call) url method body deprecated :
  String.prefix SECRET_API_KEY_PREFIX apiKey0 = false ->
  exists uid rest,
    userId (fst (constructor apiKey0 userId0 apiVersion w0)) = uid
    /\ (forall u, userId0 = Some u -> uid = u)
    /\ calls (final (_doFetch url method bearer body deprecated
                       (mkState (fst (constructor apiKey0 userId0 apiVersion w0)) w cs)))
       = (cs
          ++ TokenExchange
               (mkRequest POST
                  (("https://api.fictioneers.co.uk/v" ++ default "1" apiVersion)
                   ++ "/auth/token")
                  (Some (JObj [("user_id", JStr uid)]))
                  (<["Authorization" := apiKey0]> ∅))
          :: rest)%list
    /\ token_exchanges rest = 0%nat.
Proof.
  intros Hpublic.
  assert (Hs : exists uid,
             fst (constructor apiKey0 userId0 apiVersion w0)
             = mkSession apiKey0 uid None None
                 ("https://api.fictioneers.co.uk/v" ++ default "1" apiVersion)
             /\ forall u, userId0 = Some u -> uid = u).
  { unfold constructor. destruct userId0 as [u0|].
    - exists u0. split; [reflexivity|]. intros u H. injection H as ->. reflexivity.
    - destruct (uuidv4 w0) as [uid w1]. exists uid. split; [reflexivity|].
      intros u H. discriminate H. }
  destruct Hs as [uid [-> Hgiven]].
  destruct (tokenless_first_call
              (mkState (mkSession apiKey0 uid None None
                          ("https://api.fictioneers.co.uk/v" ++ default "1" apiVersion))
                 w cs) url method body deprecated) as [rest [Hcalls Hrest]].
  - rewrite _isKeySecret_spec. exact Hpublic.
  - reflexivity.
  - exists uid, rest. split; [reflexivity|]. split; [exact Hgiven|].
    split; [exact Hcalls|exact Hrest].
Qed.
(** Setting the same userId twice: the second call changes nothing and
    exchanges nothing. *)
Theorem setUserId_is_idempotent (st st' : State Session) (newId : string) :
  setUserId newId st = Return tt st' ->
  setUserId newId st' = Return tt st'.
Proof.
  intros Hset. rewrite <- (setUserId_returns_with_id _ _ _ Hset) at 1.
  apply setUserId_current_noop.
Qed.
End Coverage.

(** * The further properties on concrete inputs *)

Section CoverageConcrete.
Local Existing Instance scripted.

Lemma token_cache_consistency_witness :
  cache_consistent (sess new_state)
  /\ cache_consistent (sess (final (setAccessToken new_state)))
  /\ cache_consistent (sess (final (getUser new_state)))
  /\ cache_consistent (sess (final (setUserId "user-2" new_state)))
  /\ accessToken (sess (final (setUserId "user-2" new_state))) = Some "fresh"
  /\ accessTokenExpiry (sess (final (setUserId "user-2" new_state))) = Some 51000.
Proof.
  assert (Hnew : cache_consistent (sess new_state)) by (left; split; reflexivity).
  destruct (token_cache_consistency new_state) as [_ [Hkeep [Huser _]]].
  destruct (Hkeep Hnew) as [Hset [Hfetch _]].
  split; [exact Hnew|]. split; [exact Hset|]. split; [apply Hfetch|].
  split; [apply (Huser "user-2" Hnew); reflexivity|]. split; reflexivity.
Defined.


Lemma rejected_exchange_surfaces_witness :
  thrown (setAccessToken (tokenless_facing [Rejected "401"] []))
  = Some (AxiosError "401")
  /\ sess (final (setAccessToken (tokenless_facing [Rejected "401"] [])))
     = public_session None None
  /\ thrown (getUser (tokenless_facing [Rejected "401"] []))
     = Some (AxiosError "401")
  /\ endpoint_calls (calls (final (getUser (tokenless_facing [Rejected "401"] []))))
     = [].
Proof.
  destruct (rejected_exchange_surfaces (tokenless_facing [Rejected "401"] []) _
              "401" (mkScript 1000 [] []) eq_refl eq_refl) as [Hset Hfetch].
  specialize (Hfetch eq_refl "/users/me" GET JNull false).
  unfold getUser. rewrite Hset, Hfetch. repeat split.
Defined.

Lemma empty_token_grant_throws_witness :
  thrown (getUser (tokenless_facing [ok (mkTokenResponse "" 60)] [ok existing_user]))
  = Some (Error "Could not assemble auth headers with bearer - no access token")
  /\ endpoint_calls
       (calls (final (getUser (tokenless_facing [ok (mkTokenResponse "" 60)]
                                [ok existing_user]))))
     = [].
Proof.
  destruct (empty_token_grant_throws
              (tokenless_facing [ok (mkTokenResponse "" 60)] [ok existing_user]) _
              (mkResponse 200 "OK" (mkTokenResponse "" 60))
              (mkScript 1000 [] [ok existing_user])
              eq_refl eq_refl eq_refl eq_refl) as [_ [_ Hfetch]].
  exact (Hfetch "/users/me" GET JNull false).
Defined.

Lemma setAccessToken_reports_lifetime_witness :
  exists report,
    returned (setAccessToken tokenless_state) = Some report
    /\ accessToken_ report = Some "fresh"
    /\ (expiresIn report == 60)%Q.
Proof.
  destruct (setAccessToken_reports_lifetime tokenless_state _
              (mkResponse 200 "OK" (mkTokenResponse "fresh" 60))
              (mkScript 1000 [] []) 1000 (mkScript 1000 [] []) 1000 (mkScript 1000 [] [])
              eq_refl eq_refl eq_refl eq_refl) as [report [Hret [Htok Hexp]]].
  exists report. split; [exact Hret|]. split; [exact Htok|].
  rewrite Hexp. reflexivity.
Defined.

Lemma short_grant_is_never_cached_witness :
  token_exchanges
    (calls (final (setAccessToken
                     (final (setAccessToken
                               (tokenless_facing
                                  [ok (mkTokenResponse "brief" 5);
                                   ok (mkTokenResponse "next" 5)] []))))))
  = 2%nat.
Proof.
  rewrite (short_grant_is_never_cached
             (tokenless_facing [ok (mkTokenResponse "brief" 5);
                                ok (mkTokenResponse "next" 5)] []) _
             (mkResponse 200 "OK" (mkTokenResponse "brief" 5))
             (mkScript 1000 [ok (mkTokenResponse "next" 5)] [])
             1000 (mkScript 1000 [ok (mkTokenResponse "next" 5)] [])
             1000 (mkScript 1000 [ok (mkTokenResponse "next" 5)] [])
             1000 (mkScript 1000 [ok (mkTokenResponse "next" 5)] [])
             eq_refl eq_refl eq_refl eq_refl ltac:(cbn; lia) eq_refl ltac:(lia)).
  reflexivity.
Defined.

Lemma setUserId_switches_identity_witness :
  exists st',
    setUserId "user-2" boundary_state = Return tt st'
    /\ userId (sess st') = "user-2"
    /\ accessToken (sess st') = Some "fresh"
    /\ token_exchanges (calls st') = 1%nat.
Proof.
  destruct (setUserId_switches_identity boundary_state "user-2"
              (mkResponse 200 "OK" (mkTokenResponse "fresh" 60)) (mkScript 1000 [] [])
              ltac:(discriminate) ltac:(discriminate) eq_refl)
    as [st' [Hrun [Hid [Htok Hcalls]]]].
  exists st'. split; [exact Hrun|]. split; [exact Hid|]. split; [exact Htok|].
  rewrite Hcalls. reflexivity.
Defined.

Lemma setUserId_rejected_exchange_witness :
  exists st',
    setUserId "user-2"
      (start (public_session (Some "tok") (Some 5000)) (mkScript 1000 [] []))
    = Throw (AxiosError "Network Error") st'
    /\ userId (sess st') = "user-2"
    /\ accessToken (sess st') = None
    /\ accessTokenExpiry (sess st') = Some 5000.
Proof.
  destruct (setUserId_rejected_exchange
              (start (public_session (Some "tok") (Some 5000)) (mkScript 1000 [] []))
              "user-2" "Network Error" (mkScript 1000 [] [])
              ltac:(discriminate) ltac:(discriminate) eq_refl)
    as [st' [Hrun [Hid [Htok [Hexp _]]]]].
  exists st'. repeat split; assumption.
Defined.

Lemma setUserId_then_defaults_witness :
  exists st',
    setUserId "user-2" boundary_state = Return tt st'
    /\ returned (getUserId st') = Some "user-2"
    /\ deleteTimelineUser "t1" None st' = deleteTimelineUser "t1" (Some "user-2") st'.
Proof.
  eexists. split; [reflexivity|].
  destruct (setUserId_then_defaults boundary_state _ "user-2" "t1" eq_refl)
    as [Hget [_ Hdel]].
  split; [rewrite Hget; reflexivity|exact Hdel].
Defined.

Lemma setUserId_is_idempotent_witness :
  exists st',
    setUserId "user-2" boundary_state = Return tt st'
    /\ setUserId "user-2" st' = Return tt st'.
Proof.
  eexists. split; [reflexivity|].
  apply (setUserId_is_idempotent boundary_state _ "user-2" eq_refl).
Defined.
Lemma bearer_mode_request_witness :
  exists prior r,
    calls (final (getUser (tokenless_facing [ok (mkTokenResponse "fresh" 60)]
                             [ok existing_user])))
    = (prior ++ [EndpointCall r])%list
    /\ req_method r = GET
    /\ req_url r = base_url ++ "/users/me"
    /\ req_headers r !! "Authorization" = Some "Bearer fresh"
    /\ req_headers r !! "Fictioneers-User-ID" = None.
Proof.
  destruct (bearer_mode_request
              (tokenless_facing [ok (mkTokenResponse "fresh" 60)] [ok existing_user])
              _ "/users/me" GET JNull false _ eq_refl)
    as [prior [r [Hcalls [Hm [Hu [_ [_ [_ Hcred]]]]]]]].
  cbn in Hcred. destruct Hcred as [token [Htok [_ [Hauth Huid]]]].
  injection Htok as <-.
  exists prior, r. repeat split; assumption.
Defined.

Lemma secret_key_session_is_static_witness :
  sess (final (initialiseAndProgressUser "t1" false false None
                 (facing [ok (JObj [("data", JNull)]); ok existing_user;
                          ok (JObj [("data", JArr [])])])))
  = secret_session
  /\ token_exchanges
       (calls (final (initialiseAndProgressUser "t1" false false None
                        (facing [ok (JObj [("data", JNull)]); ok existing_user;
                                 ok (JObj [("data", JArr [])])]))))
     = 0%nat.
Proof.
  apply (proj2 (secret_key_session_is_static
                  (facing [ok (JObj [("data", JNull)]); ok existing_user;
                           ok (JObj [("data", JArr [])])]) eq_refl)).
Defined.

Lemma delete_envelope_any_status_witness :
  returned (deleteUser (facing [Resolved (mkResponse 500 "Internal Server Error" JNull)]))
  = Some (JObj [("data", JNull); ("error", JStr "Internal Server Error");
                ("meta", JNull); ("status", JNum 204)])
  /\ returned (deleteUser (facing [Resolved (mkResponse 304 "Not Modified" JNull)]))
     = Some (JObj [("data", JNull); ("error", JNull); ("meta", JNull);
                   ("status", JNum 204)]).
Proof.
  split.
  - destruct (delete_envelope_any_status "/users/me" bearer JNull false
                (facing [Resolved (mkResponse 500 "Internal Server Error" JNull)])
                _ _ (mkResponse 500 "Internal Server Error" JNull) _ eq_refl eq_refl)
      as [error [Hret [_ Hfail]]].
    unfold deleteUser. rewrite Hret, Hfail; [reflexivity|cbn; lia].
  - destruct (delete_envelope_any_status "/users/me" bearer JNull false
                (facing [Resolved (mkResponse 304 "Not Modified" JNull)])
                _ _ (mkResponse 304 "Not Modified" JNull) _ eq_refl eq_refl)
      as [error [Hret [Hok _]]].
    unfold deleteUser. rewrite Hret, Hok; [reflexivity|cbn; lia].
Defined.

Lemma plain_call_returns_body_witness :
  returned (getUser (facing [Resolved (mkResponse 500 "Internal Server Error"
                                         (JObj [("error", JStr "boom")]))]))
  = Some (JObj [("error", JStr "boom")]).
Proof.
  unfold getUser.
  rewrite (plain_call_returns_body "/users/me" GET bearer JNull
             (facing [Resolved (mkResponse 500 "Internal Server Error"
                                  (JObj [("error", JStr "boom")]))])
             _ _ (mkResponse 500 "Internal Server Error" (JObj [("error", JStr "boom")]))
             _ ltac:(discriminate) eq_refl eq_refl).
  reflexivity.
Defined.

Lemma rejected_request_surfaces_witness :
  thrown (deleteUser (facing [Rejected "timeout of 1000ms exceeded"]))
  = Some (AxiosError "timeout of 1000ms exceeded")
  /\ length (endpoint_calls
               (calls (final (deleteUser (facing [Rejected "timeout of 1000ms exceeded"])))))
     = 1%nat.
Proof.
  unfold deleteUser.
  rewrite (rejected_request_surfaces "/users/me" DELETE bearer JNull false
             (facing [Rejected "timeout of 1000ms exceeded"])
             _ _ "timeout of 1000ms exceeded" _ eq_refl eq_refl).
  split; reflexivity.
Defined.

Lemma initialise_call_sequence_witness :
  exists h1 h2 h3 events st',
    initialiseAndProgressUser "t1" true false (Some 3)
      (facing [ok (JObj []); ok (JObj [("data", JStr "created")]);
               ok (JObj [("data", JArr [])])])
    = Return (JObj [("user", JStr "created"); ("userTimelineEvents", events)]) st'
    /\ endpoint_calls (calls st')
       = [mkRequest GET (base_url ++ "/users/me") None h1;
          mkRequest POST (base_url ++ "/users")
            (Some (createUser_body "t1" true false (Some 3))) h2;
          mkRequest GET (base_url ++ "/user-timeline-events") None h3].
Proof.
  destruct (initialise_call_sequence "t1" true false (Some 3)
              (facing [ok (JObj []); ok (JObj [("data", JStr "created")]);
                       ok (JObj [("data", JArr [])])]) _ _ eq_refl)
    as [fetched [st1 [existing [h1 [h3 [events [Hget [Hdata Hcases]]]]]]]].
  injection Hget as <- <-. cbn in Hdata. injection Hdata as <-.
  destruct Hcases as [[Hnull _]|[_ [created [st2 [user [h2 [Hcreate [Huser [Hres Hcalls]]]]]]]]].
  - discriminate Hnull.
  - injection Hcreate as <- <-. cbn in Huser. injection Huser as <-.
    exists h1, h2, h3, events. eexists. split; [|exact Hcalls].
    rewrite <- Hres. reflexivity.
Defined.

Lemma initialise_stops_at_first_failure_witness :
  (exists message st1,
      initialiseAndProgressUser "t1" false false None (facing [ok JNull])
      = Throw (TypeError message) st1)
  /\ exists st2,
      initialiseAndProgressUser "t1" false false None
        (facing [ok (JObj [("data", JNull)]); Rejected "Request failed with status code 409";
                 ok (JObj [("data", JArr [])])])
      = Throw (AxiosError "Request failed with status code 409") st2
      /\ answers (world st2) = [ok (JObj [("data", JArr [])])].
Proof.
  split.
  - destruct (proj1 (proj2 (initialise_stops_at_first_failure "t1" false false None
                              (facing [ok JNull]) _)) eq_refl) as [message Hrun].
    exists message. eexists. exact Hrun.
  - eexists. split.
    + apply (proj2 (proj2 (initialise_stops_at_first_failure "t1" false false None
                             (facing [ok (JObj [("data", JNull)]);
                                      Rejected "Request failed with status code 409";
                                      ok (JObj [("data", JArr [])])]) _))
               (JObj [("data", JNull)]) JNull _ _ eq_refl eq_refl eq_refl eq_refl).
    + reflexivity.
Defined.

Lemma new_session_first_bearer_call_witness :
  exists rest,
    calls (final (getUser
                    (start (fst (constructor "v_71c2" (Some "user-1") None
                                   (mkScript 1000 [] [])))
                       (mkScript 1000 [ok (mkTokenResponse "fresh" 60)]
                          [ok existing_user]))))
    = TokenExchange
        (mkRequest POST "https://api.fictioneers.co.uk/v1/auth/token"
           (Some (JObj [("user_id", JStr "user-1")]))
           (<["Authorization" := "v_71c2"]> ∅))
      :: rest
    /\ token_exchanges rest = 0%nat.
Proof.
  destruct (new_session_first_bearer_call (host := scripted)
              "v_71c2" (Some "user-1") None
              (mkScript 1000 [] [])
              (mkScript 1000 [ok (mkTokenResponse "fresh" 60)] [ok existing_user])
              [] "/users/me" GET JNull false eq_refl)
    as [uid [rest [Huid [_ [Hcalls Hrest]]]]].
  cbn in Huid. subst uid.
  exists rest. split; [exact Hcalls|exact Hrest].
Defined.
Lemma audience_methods_requests_witness :
  exists headers st',
    final (followLinkUserTimelineEvent "e7" "l2" (facing [ok existing_user])) = st'
    /\ endpoint_calls (calls st')
       = [mkRequest POST (base_url ++ "/user-timeline-events/e7/follow-link")
            (Some (JObj [("link_id", JStr "l2")])) headers].
Proof.
  pose proof (audience_methods_requests (facing [ok existing_user])
                "t1" false false None "e7" "l2") as Hall.
  do 4 apply Forall_inv_tail in Hall. apply Forall_inv in Hall.
  destruct (Hall _ _ eq_refl) as [headers Hcalls].
  exists headers. eexists. split; [reflexivity|]. exact Hcalls.
Defined.
End CoverageConcrete.

Section DefaultAxiosConcrete.
Local Existing Instance scripted.

(** The failing input of C4: the remote service answers a DELETE with
    404 Not Found. *)
Lemma delete_under_default_axios_witness :
  returned (deleteUser (host := axios_defaults scripted)
              (remote_facing [Resolved (mkResponse 204 "No Content" (JStr ""))]))
  = Some (JObj [("data", JNull); ("error", JNull); ("meta", JNull);
                ("status", JNum 204)])
  /\ returned (deleteUser (host := axios_defaults scripted)
                 (remote_facing [Resolved (mkResponse 404 "Not Found" (JStr ""))]))
     = None
  /\ thrown (deleteUser (host := axios_defaults scripted)
               (remote_facing [Resolved (mkResponse 404 "Not Found" (JStr ""))]))
     = Some (AxiosError "Request failed with status code 404").
Proof.
  split.
  - apply (proj1 (delete_under_default_axios (network := scripted)
                    "/users/me" bearer JNull false
                    (remote_facing [Resolved (mkResponse 204 "No Content" (JStr ""))])
                    _ _ (mkResponse 204 "No Content" (JStr "")) _ eq_refl eq_refl)).
    cbn. lia.
  - apply (proj2 (delete_under_default_axios (network := scripted)
                    "/users/me" bearer JNull false
                    (remote_facing [Resolved (mkResponse 404 "Not Found" (JStr ""))])
                    _ _ (mkResponse 404 "Not Found" (JStr "")) _ eq_refl eq_refl));
      cbn; lia.
Defined.
End DefaultAxiosConcrete.
